(** * emotion_detection: the frame pipeline of [app.py]

    A shallow embedding of [process_video] (src/app.py) and the properties
    of its decode / classify / annotate / encode loop.

    Layout:
    - [Py]       the Python values the classifier hands back, and the
                 operators the loop body applies to them;
    - [Cv]       frames, the capture and the writer of OpenCV;
    - [App]      [process_video] itself, statement by statement;
    - the vocabulary of the properties and the loop in closed form;
    - [Sample]   concrete requests;
    - the lemmas and theorems, one group per property.

    What is modelled and what is not.  The collaborators ([cv2],
    [DeepFace], [boto3], the request) are the fields of [Env] and the
    definitions of [Cv]; [cap.read], [cv2.resize] and [out.write] return
    normally, as they do on decoded frames.  Exceptions are the subclasses
    of [Exception]; of the text that is printed only the warning of the
    [except] handler is kept, as an event. *)

From Stdlib Require Import ZArith List String Ascii Bool Lia Sorted.
From Stdlib Require Import PrimFloat FloatOps SpecFloat.
From stdpp Require Import gmap strings list.

Local Open Scope Z_scope.

(* ===================================================================== *)
(** ** Exceptions *)

(** The subclasses of [Exception] that the loop body can meet.  Both
    [except Exception] clauses of [process_video] catch every one of them. *)
Inductive exn : Type :=
| KeyError
| IndexError
| TypeError
| ValueError
| OverflowError
| CvError                        (* cv2.error *)
| CollaboratorError (msg : string).  (* raised inside DeepFace or boto3 *)

Inductive result (A : Type) : Type :=
| Ok (a : A)
| Raise (e : exn).
Arguments Ok {A} a.
Arguments Raise {A} e.

Definition rbind {A B} (r : result A) (k : A -> result B) : result B :=
  match r with
  | Ok a => k a
  | Raise e => Raise e
  end.

Declare Scope result_scope.
Delimit Scope result_scope with result.
Notation "x <- r ;; k" := (rbind r (fun x => k))
  (at level 100, r at next level, right associativity) : result_scope.

(* ===================================================================== *)
(** ** Python values and operators *)

Module Py.

(** binary64 numbers are the kernel's [float]; a Python [int] is a [Z]. *)
Definition float_of_Z (n : Z) : result float :=
  let f := SF2Prim (binary_normalize prec emax n 0 false) in
  if PrimFloat.is_infinity f then Raise OverflowError else Ok f.

(** What [DeepFace.analyze] can return: JSON-shaped data. *)
#[local] Unset Elimination Schemes.
Inductive pyval : Type :=
| PyNone
| PyInt (n : Z)
| PyFloat (f : float)
| PyStr (s : string)
| PyList (l : list pyval)
| PyDict (kvs : list (string * pyval)).
#[local] Set Elimination Schemes.

Fixpoint assoc (k : string) (kvs : list (string * pyval)) : option pyval :=
  match kvs with
  | [] => None
  | (k', v) :: rest => if String.eqb k k' then Some v else assoc k rest
  end.

(** Sequence index [i] of a sequence of length [len]: negative indices
    count from the end. *)
Definition seq_index (i len : Z) : option nat :=
  if (0 <=? i) && (i <? len) then Some (Z.to_nat i)
  else if (- len <=? i) && (i <? 0) then Some (Z.to_nat (len + i))
  else None.

(** [c[k]] *)
Definition getitem (c k : pyval) : result pyval :=
  match c with
  | PyDict kvs =>
      match k with
      | PyStr s => match assoc s kvs with Some v => Ok v | None => Raise KeyError end
      | PyList _ | PyDict _ => Raise TypeError       (* unhashable key *)
      | PyNone | PyInt _ | PyFloat _ => Raise KeyError
      end
  | PyList l =>
      match k with
      | PyInt i =>
          match seq_index i (Z.of_nat (length l)) with
          | Some n => match nth_error l n with Some v => Ok v | None => Raise IndexError end
          | None => Raise IndexError
          end
      | _ => Raise TypeError
      end
  | PyStr s =>
      match k with
      | PyInt i =>
          match seq_index i (Z.of_nat (String.length s)) with
          | Some n =>
              match String.get n s with
              | Some ch => Ok (PyStr (String ch EmptyString))
              | None => Raise IndexError
              end
          | None => Raise IndexError
          end
      | _ => Raise TypeError
      end
  | PyNone | PyInt _ | PyFloat _ => Raise TypeError  (* not subscriptable *)
  end.

Fixpoint chars (s : string) : list pyval :=
  match s with
  | EmptyString => []
  | String ch rest => PyStr (String ch EmptyString) :: chars rest
  end.

(** The items a [for] statement draws from [v]. *)
Definition iter (v : pyval) : result (list pyval) :=
  match v with
  | PyList l => Ok l
  | PyDict kvs => Ok (map (fun kv => PyStr (fst kv)) kvs)
  | PyStr s => Ok (chars s)
  | PyNone | PyInt _ | PyFloat _ => Raise TypeError
  end.

(** [v == 0] never raises. *)
Definition eq_zero (v : pyval) : bool :=
  match v with
  | PyInt n => n =? 0
  | PyFloat f => PrimFloat.eqb f 0%float
  | _ => false
  end.

(** An [int] against a [float]: Python compares the exact values. *)
Definition Z_ge_float (n : Z) (t : float) : bool :=
  match Prim2SF t with
  | S754_nan => false
  | S754_infinity s => s
  | S754_zero _ => 0 <=? n
  | S754_finite s m e =>
      let mz := if s then Z.neg m else Z.pos m in
      if 0 <=? e then mz * 2 ^ e <=? n else mz <=? n * 2 ^ (- e)
  end.

(** [v >= t] for a float [t]. *)
Definition ge_float (v : pyval) (t : float) : result bool :=
  match v with
  | PyInt n => Ok (Z_ge_float n t)
  | PyFloat f => Ok (PrimFloat.leb t f)
  | _ => Raise TypeError
  end.

(** [n * t] for an int [n] and a float [t]. *)
Definition int_mul_float (n : Z) (t : float) : result float :=
  (f <- float_of_Z n ;; Ok (PrimFloat.mul f t))%result.

(** [a + b] *)
Definition add (a b : pyval) : result pyval :=
  match a, b with
  | PyInt m, PyInt n => Ok (PyInt (m + n))
  | PyInt m, PyFloat g => (f <- float_of_Z m ;; Ok (PyFloat (PrimFloat.add f g)))%result
  | PyFloat f, PyInt n => (g <- float_of_Z n ;; Ok (PyFloat (PrimFloat.add f g)))%result
  | PyFloat f, PyFloat g => Ok (PyFloat (PrimFloat.add f g))
  | PyStr s, PyStr t => Ok (PyStr (s +:+ t))
  | PyList l, PyList r => Ok (PyList (l ++ r))
  | _, _ => Raise TypeError
  end.

(** [a - n] for an int literal [n]. *)
Definition sub_int (a : pyval) (n : Z) : result pyval :=
  match a with
  | PyInt m => Ok (PyInt (m - n))
  | PyFloat f => (g <- float_of_Z n ;; Ok (PyFloat (PrimFloat.sub f g)))%result
  | _ => Raise TypeError
  end.

(** [format(v, ".2f")]: the number that is printed, before it is cut to
    two decimals. *)
Definition format_2f (v : pyval) : result float :=
  match v with
  | PyInt n => float_of_Z n
  | PyFloat f => Ok f
  | PyStr _ => Raise ValueError
  | PyNone | PyList _ | PyDict _ => Raise TypeError
  end.

(** [float(v)]; [parse] is Python's reader of float literals. *)
Definition to_float (parse : string -> option float) (v : pyval) : result float :=
  match v with
  | PyInt n => float_of_Z n
  | PyFloat f => Ok f
  | PyStr s => match parse s with Some f => Ok f | None => Raise ValueError end
  | PyNone | PyList _ | PyDict _ => Raise TypeError
  end.

End Py.
Export Py.

(* ===================================================================== *)
(** ** OpenCV: frames, drawing, capture and writer *)

Module Cv.

Definition color : Type := Z * Z * Z.
Definition point : Type := Z * Z.

(** The text [f"{emotion} {score:.2f}"], kept as its two parts. *)
Record label : Type := { label_emotion : pyval; label_score : float }.

Inductive draw_op : Type :=
| Rectangle (pt1 pt2 : point) (c : color) (thickness : Z)
| PutText (text : label) (org : point) (font : Z) (scale : float)
          (c : color) (thickness : Z).

(** A decoded image: which picture it is ([pixels]), its shape, whether
    it has been resampled, and what has been drawn on it, oldest first.
    A decoded image is never empty, so both dimensions are [positive]. *)
Record frame : Type := {
  pixels : nat;
  rows : positive;
  cols : positive;
  resized_from : option (positive * positive);
  overlay : list draw_op
}.

(** [cv2.resize(frame, (width, height))] *)
Definition resize (f : frame) (width height : positive) : frame :=
  {| pixels := pixels f; rows := height; cols := width;
     resized_from := Some (rows f, cols f); overlay := overlay f |}.

Definition draw (op : draw_op) (f : frame) : frame :=
  {| pixels := pixels f; rows := rows f; cols := cols f;
     resized_from := resized_from f; overlay := overlay f ++ [op] |}.

(** The binding takes a coordinate only from a Python int that fits a C int. *)
Definition as_cint (v : pyval) : result Z :=
  match v with
  | PyInt n => if (- 2 ^ 31 <=? n) && (n <? 2 ^ 31) then Ok n else Raise CvError
  | _ => Raise CvError
  end.

Definition as_point (p : pyval * pyval) : result point :=
  (px <- as_cint (fst p) ;; py <- as_cint (snd p) ;; Ok (px, py))%result.

Definition FONT_HERSHEY_SIMPLEX : Z := 0.

(** [cv2.VideoWriter_fourcc(c1, c2, c3, c4)] *)
Definition VideoWriter_fourcc (c1 c2 c3 c4 : ascii) : Z :=
  let code c := Z.of_nat (nat_of_ascii c) in
  Z.lor (Z.lor (code c1) (Z.shiftl (code c2) 8))
        (Z.lor (Z.shiftl (code c3) 16) (Z.shiftl (code c4) 24)).

(** What a container holds once it has been opened. *)
Record video : Type := {
  declared_fps : option float;     (* [None]: the container gives no rate *)
  stream : list frame;             (* the frames that decode, in order *)
  seekable : bool
}.

(** [cv2.VideoCapture] *)
Record capture : Type := {
  cap_opened : bool;
  cap_fps : option float;
  cap_stream : list frame;
  cap_pending : list frame;        (* what [read] has still to deliver *)
  cap_seekable : bool
}.

Definition VideoCapture (v : option video) : capture :=
  match v with
  | Some v =>
      {| cap_opened := true; cap_fps := declared_fps v; cap_stream := stream v;
         cap_pending := stream v; cap_seekable := seekable v |}
  | None =>
      {| cap_opened := false; cap_fps := None; cap_stream := [];
         cap_pending := []; cap_seekable := false |}
  end.

Definition isOpened (c : capture) : bool := cap_opened c.

(** [cap.get(cv2.CAP_PROP_FPS)]: 0 stands for a property that cannot be read. *)
Definition get_fps (c : capture) : float :=
  if cap_opened c then
    match cap_fps c with Some r => r | None => 0%float end
  else 0%float.

(** [cap.read()]: [Some frame] is [(True, frame)], [None] is [(False, None)]. *)
Definition read (c : capture) : option frame * capture :=
  if cap_opened c then
    match cap_pending c with
    | f :: rest =>
        (Some f, {| cap_opened := true; cap_fps := cap_fps c; cap_stream := cap_stream c;
                    cap_pending := rest; cap_seekable := cap_seekable c |})
    | [] => (None, c)
    end
  else (None, c).

(** [cap.set(cv2.CAP_PROP_POS_FRAMES, 0)] *)
Definition rewind (c : capture) : capture :=
  if cap_opened c && cap_seekable c then
    {| cap_opened := true; cap_fps := cap_fps c; cap_stream := cap_stream c;
       cap_pending := cap_stream c; cap_seekable := cap_seekable c |}
  else c.

Definition cap_release (c : capture) : capture :=
  {| cap_opened := false; cap_fps := cap_fps c; cap_stream := cap_stream c;
     cap_pending := []; cap_seekable := cap_seekable c |}.

(** [cv2.VideoWriter]: a writer that could not be constructed is an object
    like any other whose [isOpened()] is false and whose [write] does
    nothing. *)
Record writer : Type := {
  out_opened : bool;
  out_path : string;
  out_fourcc : Z;
  out_fps : float;
  out_size : positive * positive;  (* (width, height) *)
  out_frames : list frame
}.

Definition VideoWriter (constructed : bool) (path : string) (fourcc : Z)
    (fps : float) (size : positive * positive) : writer :=
  {| out_opened := constructed; out_path := path; out_fourcc := fourcc;
     out_fps := fps; out_size := size; out_frames := [] |}.

Definition write (o : writer) (f : frame) : writer :=
  if out_opened o then
    {| out_opened := true; out_path := out_path o; out_fourcc := out_fourcc o;
       out_fps := out_fps o; out_size := out_size o;
       out_frames := out_frames o ++ [f] |}
  else o.

Definition out_release (o : writer) : writer :=
  {| out_opened := false; out_path := out_path o; out_fourcc := out_fourcc o;
     out_fps := out_fps o; out_size := out_size o; out_frames := out_frames o |}.

End Cv.
Export Cv.

(* ===================================================================== *)
(** ** The application *)

(** One entry of [emotions_data]; [PyNone] is JSON's [null]. *)
Module Rec.
Record t : Type := mk {
  frame : Z;
  face_detected : bool;
  emotion : pyval;
  confidence : pyval;
  x : pyval;
  y : pyval;
  width : pyval;
  height : pyval
}.
End Rec.
Definition FrameRecord : Type := Rec.t.

(** The local disk. *)
Definition payload : Type := list Byte.byte.

Inductive file : Type :=
| Uploaded (data : payload)
| Encoded (fps : float) (size : positive * positive) (frames : list frame).

(** The calls on the collaborators that the properties speak about, in the
    order in which they happen. *)
Inductive event : Type :=
| EvRead (got : option frame)            (* cap.read() *)
| EvRewind                               (* cap.set(CAP_PROP_POS_FRAMES, 0) *)
| EvWarn (frame_count : Z) (e : exn)     (* the handler's "[WARN] Frame n skipped" *)
| EvWrite (f : frame)                    (* out.write(frame) *)
| EvCapRelease
| EvOutRelease
| EvUpload (path bucket key : string).   (* s3.upload_file(...) *)

(** Everything [process_video] gets from outside. *)
Record Env : Type := {
  uuid4 : string;
  bucket_name : string;
  (** what [cv2.VideoCapture] finds in a saved payload *)
  decode : payload -> option video;
  (** whether the host can construct the writer *)
  can_encode : string -> Z -> float -> positive * positive -> bool;
  (** [DeepFace.analyze(frame, actions=['emotion'], enforce_detection=False)] *)
  analyze : frame -> result pyval;
  (** Python's reader of float literals *)
  parse_float : string -> option float;
  (** [s3.upload_file(path, bucket, key)] on the disk as it is *)
  upload_file : gmap string file -> string -> string -> string -> result unit
}.

Module App.

Definition UPLOAD_FOLDER : string := "uploads".
Definition OUTPUT_FOLDER : string := "outputs".

(** [os.path.join] of a folder and a file name. *)
Definition path_join (folder name : string) : string := folder +:+ "/" +:+ name.

Definition EMOTION_COLORS : gmap string color :=
  list_to_map
    [ ("happy", (0, 255, 0));
      ("sad", (255, 0, 0));
      ("angry", (0, 0, 255));
      ("surprise", (255, 255, 0));
      ("fear", (128, 0, 128));
      ("disgust", (0, 255, 255));
      ("neutral", (200, 200, 200)) ].

Definition white : color := (255, 255, 255).
Definition black : color := (0, 0, 0).

(** [EMOTION_COLORS.get(emotion, (255, 255, 255))] *)
Definition emotion_color (emotion : pyval) : result color :=
  match emotion with
  | PyStr s => Ok (default white (EMOTION_COLORS !! s))
  | PyList _ | PyDict _ => Raise TypeError
  | PyNone | PyInt _ | PyFloat _ => Ok white
  end.

(** The binary64 number that the literal [0.95] denotes. *)
Definition c095 : float := 0x1.e666666666666p-1%float.
(** The literal [0.9], the font scale. *)
Definition c09 : float := 0x1.ccccccccccccdp-1%float.

(** *** The body of the [try]: state and exceptions

    [frame] and [emotions_data] are changed in place, so what was drawn and
    appended before an exception stays. *)
Record annot : Type := {
  a_frame : frame;
  a_data : list FrameRecord
}.

Definition M (A : Type) : Type := annot -> result A * annot.

Definition mret {A} (v : A) : M A := fun a => (Ok v, a).

Definition mbind {A B} (m : M A) (k : A -> M B) : M B :=
  fun a =>
    match m a with
    | (Ok v, a') => k v a'
    | (Raise e, a') => (Raise e, a')
    end.

Definition lift {A} (r : result A) : M A := fun a => (r, a).

Declare Scope annot_scope.
Delimit Scope annot_scope with annot.
Notation "x <- m ;; k" := (mbind m (fun x => k))
  (at level 100, m at next level, right associativity) : annot_scope.
Notation "m ;;; k" := (mbind m (fun _ => k))
  (at level 100, right associativity) : annot_scope.

Definition get_frame : M frame := fun a => (Ok (a_frame a), a).

(** [emotions_data.append(r)] *)
Definition append (r : FrameRecord) : M unit :=
  fun a => (Ok tt, {| a_frame := a_frame a; a_data := a_data a ++ [r] |}).

(** [cv2.rectangle(frame, pt1, pt2, color, thickness)] *)
Definition rectangle (pt1 pt2 : pyval * pyval) (c : color) (thickness : Z) : M unit :=
  fun a =>
    match (p1 <- as_point pt1 ;; p2 <- as_point pt2 ;; Ok (p1, p2))%result with
    | Ok (p1, p2) =>
        (Ok tt, {| a_frame := draw (Rectangle p1 p2 c thickness) (a_frame a);
                   a_data := a_data a |})
    | Raise e => (Raise e, a)
    end.

(** [cv2.putText(frame, text, org, font, scale, color, thickness)] *)
Definition putText (text : label) (org : pyval * pyval) (font : Z) (scale : float)
    (c : color) (thickness : Z) : M unit :=
  fun a =>
    match as_point org with
    | Ok p =>
        (Ok tt, {| a_frame := draw (PutText text p font scale c thickness) (a_frame a);
                   a_data := a_data a |})
    | Raise e => (Raise e, a)
    end.

(** [face['region'][k]] *)
Definition region_field (face : pyval) (k : string) : result pyval :=
  (region <- getitem face (PyStr "region") ;; getitem region (PyStr k))%result.

(** [f"{emotion} {score:.2f}"] *)
Definition fmt_label (emotion score : pyval) : result label :=
  (s <- format_2f score ;; Ok {| label_emotion := emotion; label_score := s |})%result.

(** [w == 0 or h == 0] *)
Definition degenerate (w h : pyval) : bool := eq_zero w || eq_zero h.

(** [w >= frame_width * 0.95 and h >= frame_height * 0.95] *)
Definition full_frame (w h : pyval) (frame_width frame_height : positive) : result bool :=
  (tw <- int_mul_float (Z.pos frame_width) c095 ;;
   bw <- ge_float w tw ;;
   if bw : bool then
     th <- int_mul_float (Z.pos frame_height) c095 ;;
     ge_float h th
   else Ok false)%result.

Definition null_record (frame_count : Z) : FrameRecord :=
  {| Rec.frame := frame_count; Rec.face_detected := false;
     Rec.emotion := PyNone; Rec.confidence := PyNone;
     Rec.x := PyNone; Rec.y := PyNone; Rec.width := PyNone; Rec.height := PyNone |}.

Section WithEnv.
Variable E : Env.

(** Line 97: [x, y, w, h = face['region']['x'], ..., face['region']['h']] *)
Definition read_region (face : pyval) : result (pyval * pyval * pyval * pyval) :=
  (x <- region_field face "x" ;;
   y <- region_field face "y" ;;
   w <- region_field face "w" ;;
   h <- region_field face "h" ;;
   Ok (x, y, w, h))%result.

(** Lines 128-157: a detection that passed both filters. *)
Definition annotate_face (frame_count : Z) (face x y w h : pyval) : M unit :=
  (emotion <- lift (getitem face (PyStr "dominant_emotion")) ;;
   scores <- lift (getitem face (PyStr "emotion")) ;;
   score <- lift (getitem scores emotion) ;;
   color <- lift (emotion_color emotion) ;;
   xw <- lift (add x w) ;;
   yh <- lift (add y h) ;;
   rectangle (x, y) (xw, yh) black 4 ;;;
   xw <- lift (add x w) ;;
   yh <- lift (add y h) ;;
   rectangle (x, y) (xw, yh) color 2 ;;;
   text <- lift (fmt_label emotion score) ;;
   y10 <- lift (sub_int y 10) ;;
   putText text (x, y10) FONT_HERSHEY_SIMPLEX c09 black 4 ;;;
   text <- lift (fmt_label emotion score) ;;
   y10 <- lift (sub_int y 10) ;;
   putText text (x, y10) FONT_HERSHEY_SIMPLEX c09 color 2 ;;;
   conf <- lift (to_float (parse_float E) score) ;;
   append {| Rec.frame := frame_count; Rec.face_detected := true;
             Rec.x := x; Rec.y := y; Rec.width := w; Rec.height := h;
             Rec.emotion := emotion; Rec.confidence := PyFloat conf |} ;;;
   _ <- lift (fmt_label emotion score) ;;                   (* the print *)
   mret tt)%annot.

(** Lines 97-157, the body of [for face in result]. *)
Definition process_face (frame_count : Z) (face : pyval) : M unit :=
  (region <- lift (read_region face) ;;
   let '(x, y, w, h) := region in
   frame <- get_frame ;;
   let frame_height := rows frame in
   let frame_width := cols frame in
   if degenerate w h then
     append (null_record frame_count)                       (* continue *)
   else
     full <- lift (full_frame w h frame_width frame_height) ;;
     if full : bool then
       append (null_record frame_count)                     (* continue *)
     else
       annotate_face frame_count face x y w h)%annot.

Fixpoint for_faces (frame_count : Z) (faces : list pyval) : M unit :=
  match faces with
  | [] => mret tt
  | face :: rest =>
      (process_face frame_count face ;;; for_faces frame_count rest)%annot
  end.

(** Lines 95-157, what stands between [try:] and [except]. *)
Definition try_body (frame_count : Z) : M unit :=
  (frame <- get_frame ;;
   result <- lift (analyze E frame) ;;
   faces <- lift (iter result) ;;
   for_faces frame_count faces)%annot.

(** *** The frame loop *)

Record loop_state : Type := {
  frame_count : Z;
  emotions_data : list FrameRecord;
  st_cap : capture;
  st_out : writer;
  trace : list event
}.

(** Lines 89-91: a frame of another size is brought to [(width, height)]. *)
Definition fit (width height : positive) (frame : Cv.frame) : Cv.frame :=
  if negb (cols frame =? width)%positive || negb (rows frame =? height)%positive
  then resize frame width height
  else frame.

(** Lines 86-161: one pass of the [while], after a successful [read]. *)
Definition loop_body (width height : positive) (frame : frame)
    (st : loop_state) : loop_state :=
  let frame_count := frame_count st + 1 in
  let frame := fit width height frame in
  let '(r, a) := try_body frame_count {| a_frame := frame; a_data := emotions_data st |} in
  let trace :=
    match r with
    | Ok _ => trace st
    | Raise e => trace st ++ [EvWarn frame_count e]        (* except Exception as e *)
    end in
  {| frame_count := frame_count;
     emotions_data := a_data a;
     st_cap := st_cap st;
     st_out := write (st_out st) (a_frame a);
     trace := trace ++ [EvWrite (a_frame a)] |}.

(** Lines 81-161.  [fuel] bounds the number of passes; [process_video]
    gives one more than the number of frames that are left to read, and
    [frame_loop_fuel] shows that the loop then ends by its [break]. *)
Fixpoint frame_loop (fuel : nat) (width height : positive)
    (st : loop_state) : loop_state :=
  match fuel with
  | O => st
  | S fuel =>
      if isOpened (st_cap st) then
        let '(got, cap') := read (st_cap st) in
        let st' := {| frame_count := frame_count st; emotions_data := emotions_data st;
                      st_cap := cap'; st_out := st_out st;
                      trace := trace st ++ [EvRead got] |} in
        match got with
        | None => st'                                       (* break *)
        | Some frame => frame_loop fuel width height (loop_body width height frame st')
        end
      else st
  end.

(** *** The request handler *)

Inductive response : Type :=
| NoVideo            (* {'error': 'No video file provided'}, 400 *)
| ReadFailed         (* {'error': 'Failed to read video frames.'}, 500 *)
| UploadFailed       (* {'error': 'Failed to upload to S3'}, 500 *)
| Processed (output_video_path s3_url : string) (results : list FrameRecord).

Definition status (r : response) : Z :=
  match r with
  | NoVideo => 400
  | ReadFailed | UploadFailed => 500
  | Processed _ _ _ => 200
  end.

Definition s3_url_of (r : response) : option string :=
  match r with
  | Processed _ url _ => Some url
  | _ => None
  end.

(** What a request leaves behind. *)
Record outcome : Type := {
  resp : response;
  disk : gmap string file;
  end_cap : option capture;      (* [None]: never created *)
  end_out : option writer;
  events : list event
}.

(** [os.path.basename]: what follows the last slash. *)
Fixpoint basename_from (acc s : string) : string :=
  match s with
  | EmptyString => acc
  | String ch rest =>
      if Ascii.eqb ch "/" then basename_from EmptyString rest
      else basename_from (acc +:+ String ch EmptyString) rest
  end.
Definition basename (path : string) : string := basename_from EmptyString path.

Definition input_path_of (unique_id : string) : string :=
  path_join UPLOAD_FOLDER ("temp_" +:+ unique_id +:+ ".mp4").
Definition output_path_of (unique_id : string) : string :=
  path_join OUTPUT_FOLDER ("processed_" +:+ unique_id +:+ ".mp4").

(** [fps = cap.get(cv2.CAP_PROP_FPS); if fps == 0: fps = 25] *)
Definition output_fps (c : capture) : float :=
  let fps := get_fps c in
  if PrimFloat.eqb fps 0%float then 25%float else fps.

Definition process_video (request_files : option payload)
    (fs : gmap string file) : outcome :=
  match request_files with
  | None =>
      {| resp := NoVideo; disk := fs; end_cap := None; end_out := None; events := [] |}
  | Some video_file =>
      let unique_id := uuid4 E in
      let input_path := input_path_of unique_id in
      let output_path := output_path_of unique_id in
      (* video_file.save(input_path) *)
      let fs := <[input_path := Uploaded video_file]> fs in
      let cap := VideoCapture (decode E video_file) in
      let fps := output_fps cap in
      let '(got, cap) := read cap in
      match got with
      | None =>
          {| resp := ReadFailed; disk := fs; end_cap := Some cap; end_out := None;
             events := [EvRead None] |}
      | Some frame =>
          let height := rows frame in
          let width := cols frame in
          let fourcc := VideoWriter_fourcc "m" "p" "4" "v" in
          let constructed := can_encode E output_path fourcc fps (width, height) in
          let out := VideoWriter constructed output_path fourcc fps (width, height) in
          let fs :=
            if constructed then <[output_path := Encoded fps (width, height) []]> fs
            else fs in
          let cap := rewind cap in
          let st :=
            frame_loop (S (length (cap_pending cap))) width height
              {| frame_count := 0; emotions_data := []; st_cap := cap; st_out := out;
                 trace := [EvRead (Some frame); EvRewind] |} in
          (* cap.release(); out.release(): the container is complete on disk *)
          let cap := cap_release (st_cap st) in
          let fs :=
            if out_opened (st_out st)
            then <[output_path := Encoded fps (width, height) (out_frames (st_out st))]> fs
            else fs in
          let out := out_release (st_out st) in
          let trace := trace st ++ [EvCapRelease; EvOutRelease] in
          let s3_key := "videos/" +:+ basename output_path in
          let trace := trace ++ [EvUpload output_path (bucket_name E) s3_key] in
          match upload_file E fs output_path (bucket_name E) s3_key with
          | Ok _ =>
              let s3_url :=
                "https://" +:+ bucket_name E +:+ ".s3.amazonaws.com/" +:+ s3_key in
              {| resp := Processed output_path s3_url (emotions_data st);
                 disk := fs; end_cap := Some cap; end_out := Some out; events := trace |}
          | Raise _ =>
              {| resp := UploadFailed;
                 disk := fs; end_cap := Some cap; end_out := Some out; events := trace |}
          end
      end
  end.

End WithEnv.
End App.
Import App.

(* ===================================================================== *)
(** ** Vocabulary of the properties *)

(** The frames that [cap.read()] delivered, and those handed to
    [out.write], in the order of the calls. *)
Fixpoint reads (t : list event) : list frame :=
  match t with
  | [] => []
  | EvRead (Some f) :: rest => f :: reads rest
  | _ :: rest => reads rest
  end.

Fixpoint writes (t : list event) : list frame :=
  match t with
  | [] => []
  | EvWrite f :: rest => f :: writes rest
  | _ :: rest => writes rest
  end.

(** What happens after [cap.set(CAP_PROP_POS_FRAMES, 0)]: the loop and
    what follows it. *)
Fixpoint after_rewind (t : list event) : list event :=
  match t with
  | [] => []
  | EvRewind :: rest => rest
  | _ :: rest => after_rewind rest
  end.

(** Every frame read is written once, at the size of the output, before
    the next one is read, and nothing else is written.  [awaiting] is the
    frame read and not yet written. *)
Fixpoint paired (width height : positive) (awaiting : option frame)
    (t : list event) : bool :=
  match t with
  | [] => match awaiting with None => true | Some _ => false end
  | EvRead (Some f) :: rest =>
      match awaiting with
      | None => paired width height (Some f) rest
      | Some _ => false
      end
  | EvWrite g :: rest =>
      match awaiting with
      | Some f =>
          (pixels g =? pixels f)%nat && (cols g =? width)%positive
          && (rows g =? height)%positive && paired width height None rest
      | None => false
      end
  | _ :: rest => paired width height awaiting rest
  end.

Definition is_upload (e : event) : bool :=
  match e with EvUpload _ _ _ => true | _ => false end.
Definition is_release (e : event) : bool :=
  match e with EvCapRelease | EvOutRelease => true | _ => false end.

(** The first [cap.read()] of a request, and the frames the loop will get. *)
Definition first_read (E : Env) (video_file : payload) : option frame * capture :=
  read (VideoCapture (decode E video_file)).
Definition loop_frames (E : Env) (video_file : payload) : list frame :=
  cap_pending (rewind (snd (first_read E video_file))).

(** Whether the host constructs the writer of a request. *)
Definition sink_constructed (E : Env) (video_file : payload) (first : frame) : bool :=
  can_encode E (output_path_of (uuid4 E)) (VideoWriter_fourcc "m" "p" "4" "v")
    (output_fps (VideoCapture (decode E video_file))) (cols first, rows first).

(** What one frame adds to [emotions_data], and what it looks like when it
    is written. *)
Definition frame_annot (E : Env) (frame_count : Z) (width height : positive)
    (f : frame) : result unit * annot :=
  try_body E frame_count {| a_frame := fit width height f; a_data := [] |}.
Definition frame_records (E : Env) (frame_count : Z) (width height : positive)
    (f : frame) : list FrameRecord :=
  a_data (snd (frame_annot E frame_count width height f)).

(** The records of the frames that follow frame number [frame_count]. *)
Fixpoint records_from (E : Env) (width height : positive) (frame_count : Z)
    (frames : list frame) : list FrameRecord :=
  match frames with
  | [] => []
  | f :: rest =>
      frame_records E (frame_count + 1) width height f
      ++ records_from E width height (frame_count + 1) rest
  end.

(** A finite number between 0 and 1. *)
Definition in_unit_interval (f : float) : bool :=
  PrimFloat.leb 0%float f && PrimFloat.leb f 1%float.

(** The Python values that are equal to 0: the int 0 and the floats 0.0
    and -0.0. *)
Inductive zero_size (v : pyval) : Prop :=
| zero_int : v = PyInt 0 -> zero_size v
| zero_float : v = PyFloat PrimFloat.zero -> zero_size v
| zero_neg_float : v = PyFloat PrimFloat.neg_zero -> zero_size v.

(** The regions that the two filters are there for, in a frame of
    [frame_width] by [frame_height] pixels, said without the tests of the
    code: a width that is 0, a height that is 0, or, for a region of whole
    pixels, a width and a height that are both at least 0.95 times those
    of the frame, in exact arithmetic.  The frame is of up to 65536 pixels
    a side: there the float product [frame_width * 0.95] of line 114
    separates the whole numbers exactly as 0.95 times the width does
    ([thresholds_exact_65536]). *)
Inductive filtered_out (frame_width frame_height : positive) (w h : pyval) : Prop :=
| no_width : zero_size w -> filtered_out frame_width frame_height w h
| no_height : zero_size h -> filtered_out frame_width frame_height w h
| full_box (wz hz : Z) :
    w = PyInt wz -> h = PyInt hz ->
    (frame_width <= 65536)%positive -> (frame_height <= 65536)%positive ->
    100 * wz >= 95 * Z.pos frame_width ->
    100 * hz >= 95 * Z.pos frame_height ->
    filtered_out frame_width frame_height w h.

(** The least whole number that is at least 0.95 times [n]. *)
Definition ceil95 (n : Z) : Z := (19 * n + 19) / 20.

(** Whether the float [frame_width * 0.95] separates the whole numbers as
    the exact product does. *)
Definition threshold_exact (frame_width : positive) : bool :=
  match int_mul_float (Z.pos frame_width) c095 with
  | Ok t =>
      Z_ge_float (ceil95 (Z.pos frame_width)) t
      && negb (Z_ge_float (ceil95 (Z.pos frame_width) - 1) t)
  | Raise _ => false
  end.

Fixpoint thresholds_exact (n : nat) (from : positive) : bool :=
  match n with
  | O => true
  | S n => threshold_exact from && thresholds_exact n (Pos.succ from)
  end.

(** *** The loop in closed form *)

(** [ops] drawn on [f], one after the other. *)
Definition draws (ops : list draw_op) (f : frame) : frame :=
  {| pixels := pixels f; rows := rows f; cols := cols f;
     resized_from := resized_from f; overlay := overlay f ++ ops |}.

(** A step that only draws on the frame and only appends records of
    frame number [frame_count], and does so whatever [emotions_data]
    already holds. *)
Definition regular {A} (frame_count : Z) (m : M A) : Prop :=
  forall f : frame, exists (r : result A) (ops : list draw_op) (new : list FrameRecord),
    Forall (fun rec => Rec.frame rec = frame_count) new
    /\ forall d, m {| a_frame := f; a_data := d |}
                 = (r, {| a_frame := draws ops f; a_data := d ++ new |}).

(** What [continue] after a null record amounts to. *)
Definition with_null (frame_count : Z) (a : annot) : annot :=
  {| a_frame := a_frame a; a_data := a_data a ++ [null_record frame_count] |}.

(** The frame that [out.write] gets, and the events of one pass. *)
Definition written_frame (E : Env) (frame_count : Z) (width height : positive)
    (f : frame) : frame :=
  a_frame (snd (frame_annot E frame_count width height f)).

Definition pass_events (E : Env) (frame_count : Z) (width height : positive)
    (f : frame) : list event :=
  match fst (frame_annot E frame_count width height f) with
  | Ok _ => []
  | Raise e => [EvWarn frame_count e]
  end ++ [EvWrite (written_frame E frame_count width height f)].

Fixpoint loop_events (E : Env) (width height : positive) (frame_count : Z)
    (frames : list frame) : list event :=
  match frames with
  | [] => [EvRead None]
  | f :: rest =>
      EvRead (Some f) :: pass_events E (frame_count + 1) width height f
      ++ loop_events E width height (frame_count + 1) rest
  end.

Fixpoint outputs_from (E : Env) (width height : positive) (frame_count : Z)
    (frames : list frame) : list frame :=
  match frames with
  | [] => []
  | f :: rest =>
      written_frame E (frame_count + 1) width height f
      :: outputs_from E width height (frame_count + 1) rest
  end.

Definition drained (c : capture) : capture :=
  {| cap_opened := cap_opened c; cap_fps := cap_fps c; cap_stream := cap_stream c;
     cap_pending := []; cap_seekable := cap_seekable c |}.

(** The state in which the loop leaves, when it started in [st] with
    [frames] left to read. *)
Definition loop_result (E : Env) (width height : positive) (st : loop_state)
    (frames : list frame) : loop_state :=
  {| frame_count := frame_count st + Z.of_nat (length frames);
     emotions_data := emotions_data st ++ records_from E width height (frame_count st) frames;
     st_cap := drained (st_cap st);
     st_out := fold_left write (outputs_from E width height (frame_count st) frames) (st_out st);
     trace := trace st ++ loop_events E width height (frame_count st) frames |}.

(** *** A request that gets to the loop, in closed form

    [first] is the frame of the first [cap.read()]. *)
Definition fourcc_mp4v : Z := VideoWriter_fourcc "m" "p" "4" "v".

Definition loop_start (E : Env) (video_file : payload) (first : frame) : loop_state :=
  {| frame_count := 0;
     emotions_data := [];
     st_cap := rewind (snd (first_read E video_file));
     st_out :=
       VideoWriter (sink_constructed E video_file first) (output_path_of (uuid4 E))
         fourcc_mp4v (output_fps (VideoCapture (decode E video_file)))
         (cols first, rows first);
     trace := [EvRead (Some first); EvRewind] |}.

Definition s3_key_of (E : Env) : string :=
  "videos/" +:+ basename (output_path_of (uuid4 E)).

(** The disk when [s3.upload_file] is called. *)
Definition disk_at_upload (E : Env) (video_file : payload) (first : frame)
    (fs : gmap string file) : gmap string file :=
  let fps := output_fps (VideoCapture (decode E video_file)) in
  let size := (cols first, rows first) in
  let saved := <[input_path_of (uuid4 E) := Uploaded video_file]> fs in
  if sink_constructed E video_file first
  then <[output_path_of (uuid4 E) :=
           Encoded fps size (outputs_from E (cols first) (rows first) 0
                               (loop_frames E video_file))]>
         (<[output_path_of (uuid4 E) := Encoded fps size []]> saved)
  else saved.

Definition upload_call (E : Env) : event :=
  EvUpload (output_path_of (uuid4 E)) (bucket_name E) (s3_key_of E).

Definition upload_result (E : Env) (video_file : payload) (first : frame)
    (fs : gmap string file) : result unit :=
  upload_file E (disk_at_upload E video_file first fs)
    (output_path_of (uuid4 E)) (bucket_name E) (s3_key_of E).

Definition run_closed (E : Env) (video_file : payload) (first : frame)
    (fs : gmap string file) : outcome :=
  {| resp :=
       match upload_result E video_file first fs with
       | Ok _ =>
           Processed (output_path_of (uuid4 E))
             ("https://" +:+ bucket_name E +:+ ".s3.amazonaws.com/" +:+ s3_key_of E)
             (records_from E (cols first) (rows first) 0 (loop_frames E video_file))
       | Raise _ => UploadFailed
       end;
     disk := disk_at_upload E video_file first fs;
     end_cap := Some (cap_release (drained (rewind (snd (first_read E video_file)))));
     end_out :=
       Some (out_release
               (fold_left write
                  (outputs_from E (cols first) (rows first) 0 (loop_frames E video_file))
                  (st_out (loop_start E video_file first))));
     events :=
       ([EvRead (Some first); EvRewind]
        ++ loop_events E (cols first) (rows first) 0 (loop_frames E video_file))
       ++ [EvCapRelease; EvOutRelease] ++ [upload_call E] |}.

(** *** Readings that the code does not bear out *)

(** "Every detection that the classifier returns for a frame and that has
    no width, no height, or the size of the frame, leaves a record without
    a face in the log of that frame." *)
Definition every_filtered_detection_recorded (E : Env) : Prop :=
  forall (k : Z) (width height : positive) (f : frame) (res : pyval)
         (faces : list pyval) (i : nat) (face x y w h : pyval),
    analyze E (fit width height f) = Ok res ->
    iter res = Ok faces ->
    faces !! i = Some face ->
    read_region face = Ok (x, y, w, h) ->
    filtered_out width height w h ->
    exists r, r ∈ frame_records E k width height f /\ Rec.face_detected r = false.

(** "A frame on which inference fails adds no record and is written as
    it was read." *)
Definition failure_leaves_frame_untouched (E : Env) : Prop :=
  forall (width height : positive) (f : frame) (st : loop_state) (e : exn),
    fst (frame_annot E (frame_count st + 1) width height f) = Raise e ->
    emotions_data (loop_body E width height f st) = emotions_data st
    /\ trace (loop_body E width height f st)
       = trace st ++ [EvWarn (frame_count st + 1) e; EvWrite (fit width height f)].

(** "The record of a valid detection holds a confidence between 0 and 1
    and a label that is not empty." *)
Definition valid_records_normalised (E : Env) (request_files : option payload)
    (fs : gmap string file) : Prop :=
  forall path url results r,
    resp (process_video E request_files fs) = Processed path url results ->
    In r results ->
    Rec.face_detected r = true ->
    (exists c, Rec.confidence r = PyFloat c /\ in_unit_interval c = true)
    /\ (exists s, Rec.emotion r = PyStr s /\ s <> EmptyString).

(** "When the writer cannot be constructed, the request fails there and
    no frame is written." *)
Definition sink_failure_stops_job (E : Env) (video_file : payload)
    (fs : gmap string file) : Prop :=
  forall first c,
    first_read E video_file = (Some first, c) ->
    sink_constructed E video_file first = false ->
    status (resp (process_video E (Some video_file) fs)) = 500
    /\ writes (events (process_video E (Some video_file) fs)) = []
    /\ List.filter is_upload (events (process_video E (Some video_file) fs)) = [].

(** *** What a detection leaves behind *)

(** A Python int that the drawing calls take as a coordinate. *)
Definition fits_cint (z : Z) : bool := (- 2 ^ 31 <=? z) && (z <? 2 ^ 31).

(** The record of lines 146-155 for a region of whole pixels. *)
Definition face_record (frame_count x y w h : Z) (emotion : pyval) (conf : float)
    : FrameRecord :=
  {| Rec.frame := frame_count; Rec.face_detected := true;
     Rec.x := PyInt x; Rec.y := PyInt y; Rec.width := PyInt w; Rec.height := PyInt h;
     Rec.emotion := emotion; Rec.confidence := PyFloat conf |}.

(** The four calls of lines 136-145: the outline and the box, the text
    outline and the text. *)
Definition face_overlay (x y w h : Z) (emotion : pyval) (conf : float) (c : color)
    : list draw_op :=
  let text := {| label_emotion := emotion; label_score := conf |} in
  [ Rectangle (x, y) (x + w, y + h) black 4;
    Rectangle (x, y) (x + w, y + h) c 2;
    PutText text (x, y - 10) FONT_HERSHEY_SIMPLEX c09 black 4;
    PutText text (x, y - 10) FONT_HERSHEY_SIMPLEX c09 c 2 ].

(** The two shapes of a record of frame [frame_count]. *)
Inductive record_shape (frame_count : Z) (r : FrameRecord) : Prop :=
| shape_null : r = null_record frame_count -> record_shape frame_count r
| shape_face (x y w h : Z) (emotion : pyval) (conf : float) :
    r = face_record frame_count x y w h emotion conf ->
    w <> 0 -> h <> 0 ->
    fits_cint x = true -> fits_cint y = true ->
    fits_cint (x + w) = true -> fits_cint (y + h) = true ->
    fits_cint (y - 10) = true ->
    (exists s, emotion = PyStr s) \/ (exists n, emotion = PyInt n) ->
    record_shape frame_count r.

(** The detections that the classifier returned for a frame, none when it
    raised or returned something that cannot be iterated. *)
Definition detections (E : Env) (width height : positive) (f : frame) : list pyval :=
  match analyze E (fit width height f) with
  | Ok res => match iter res with Ok faces => faces | Raise _ => [] end
  | Raise _ => []
  end.

(** The warnings of the [except] handler, in order. *)
Fixpoint warns (t : list event) : list (Z * exn) :=
  match t with
  | [] => []
  | EvWarn k e :: rest => (k, e) :: warns rest
  | _ :: rest => warns rest
  end.

(** The frames after number [frame_count] whose pass raises, with what
    they raise. *)
Fixpoint failures_from (E : Env) (width height : positive) (frame_count : Z)
    (frames : list frame) : list (Z * exn) :=
  match frames with
  | [] => []
  | f :: rest =>
      match fst (frame_annot E (frame_count + 1) width height f) with
      | Ok _ => []
      | Raise e => [(frame_count + 1, e)]
      end ++ failures_from E width height (frame_count + 1) rest
  end.

Fixpoint no_slash (s : string) : bool :=
  match s with
  | EmptyString => true
  | String ch rest => negb (Ascii.eqb ch "/") && no_slash rest
  end.

(** *** Lines 9-48: what happens when the module is loaded

    The two folders are made, then the four variables are read and
    checked, then the client of the store is built from the first
    three. *)

Module Startup.

Inductive entry : Type := Directory | RegularFile.

Inductive failure : Type :=
| FileExistsError (path : string)   (* os.makedirs on a path that is a file *)
| MissingCredentials                (* the ValueError of line 40 *)
| ClientError (e : exn).            (* raised by boto3.client, lines 43-48 *)

(** [os.makedirs(path, exist_ok=True)] for a path of one component. *)
Definition makedirs (path : string) (tree : gmap string entry)
    : failure + gmap string entry :=
  match tree !! path with
  | None => inr (<[path := Directory]> tree)
  | Some Directory => inr tree
  | Some RegularFile => inl (FileExistsError path)
  end.

(** The truth value of what [os.getenv] returns: [None] and [''] are
    false. *)
Definition truthy (v : option string) : bool :=
  match v with
  | Some s => negb (String.eqb s EmptyString)
  | None => false
  end.

(** The module globals of lines 31-34. *)
Record credentials : Type := {
  AWS_ACCESS_KEY_ID : option string;
  AWS_SECRET_ACCESS_KEY : option string;
  AWS_REGION : option string;
  bucket_name : option string
}.

(** [environ] is the environment after [load_dotenv()]; [client] is
    [boto3.client('s3', aws_access_key_id=..., aws_secret_access_key=...,
    region_name=...)], which looks at what it is given (a region name that
    is not well formed, for one) and can raise. *)
Definition load
    (client : option string -> option string -> option string -> result unit)
    (environ : gmap string string) (tree : gmap string entry)
    : (failure + credentials) * gmap string entry :=
  match makedirs App.UPLOAD_FOLDER tree with
  | inl e => (inl e, tree)
  | inr tree1 =>
      match makedirs App.OUTPUT_FOLDER tree1 with
      | inl e => (inl e, tree1)
      | inr tree2 =>
          let c := {| AWS_ACCESS_KEY_ID := environ !! "AWS_ACCESS_KEY_ID";
                      AWS_SECRET_ACCESS_KEY := environ !! "AWS_SECRET_ACCESS_KEY";
                      AWS_REGION := environ !! "AWS_REGION";
                      bucket_name := environ !! "BUCKET_NAME" |} in
          if forallb truthy
               [AWS_ACCESS_KEY_ID c; AWS_SECRET_ACCESS_KEY c; AWS_REGION c; bucket_name c]
          then
            match client (AWS_ACCESS_KEY_ID c) (AWS_SECRET_ACCESS_KEY c) (AWS_REGION c) with
            | Ok _ => (inr c, tree2)
            | Raise e => (inl (ClientError e), tree2)
            end
          else (inl MissingCredentials, tree2)
      end
  end.

End Startup.

(* ===================================================================== *)
(** ** Sample requests *)

Module Sample.

Definition picture (id : nat) (height width : positive) : frame :=
  {| pixels := id; rows := height; cols := width; resized_from := None; overlay := [] |}.

(** One entry of the list that the classifier returns. *)
Definition detection (x y w h : Z) (dominant : string) (score : pyval) : pyval :=
  PyDict [ ("emotion", PyDict [(dominant, score)]);
           ("dominant_emotion", PyStr dominant);
           ("region", PyDict [("x", PyInt x); ("y", PyInt y); ("w", PyInt w); ("h", PyInt h)]) ].

Definition happy : pyval := detection 10 10 50 50 "happy" (PyFloat 0.75).
Definition whole_frame : pyval := detection 0 0 95 95 "happy" (PyFloat 0.75).
Definition no_width : pyval := detection 10 10 0 50 "sad" (PyFloat 0.5).
(** [DeepFace] reports its scores in per cent. *)
Definition percent : pyval := detection 10 10 50 50 "happy" (PyFloat 87.5).
Definition unnamed : pyval := detection 10 10 50 50 "" (PyFloat 0.5).
(** An entry without its ['region']. *)
Definition malformed : pyval := PyDict [("dominant_emotion", PyStr "happy")].
(** An entry whose score is [None]: the boxes are drawn before the text
    is formatted. *)
Definition no_score : pyval := detection 10 10 50 50 "happy" PyNone.

(** An uploader that needs the file to be there. *)
Definition upload_if_present (fs : gmap string file) (path bucket key : string)
    : result unit :=
  match fs !! path with
  | Some _ => Ok tt
  | None => Raise (CollaboratorError "file not found")
  end.

Definition upload_down (fs : gmap string file) (path bucket key : string)
    : result unit := Raise (CollaboratorError "endpoint unreachable").

Definition host (content : option video) (codec : bool)
    (classifier : frame -> result pyval)
    (uploader : gmap string file -> string -> string -> string -> result unit) : Env :=
  {| uuid4 := "6fa1";
     bucket_name := "clips";
     decode := fun _ => content;
     can_encode := fun _ _ _ _ => codec;
     analyze := classifier;
     parse_float := fun _ => None;
     upload_file := uploader |}.

(** Three frames; the second is smaller than the first. *)
Definition clip : video :=
  {| declared_fps := Some 30%float;
     stream := [picture 1 100 100; picture 2 50 50; picture 3 100 100];
     seekable := true |}.

(** Frame 1: one face.  Frame 2: a box over the whole frame, a face, and
    a malformed entry.  Frame 3: the classifier raises. *)
Definition classifier (f : frame) : result pyval :=
  match pixels f with
  | 1%nat => Ok (PyList [happy])
  | 2%nat => Ok (PyList [whole_frame; happy; malformed])
  | _ => Raise (CollaboratorError "model failure")
  end.

Definition studio : Env := host (Some clip) true classifier upload_if_present.
Definition no_codec : Env := host (Some clip) false classifier upload_if_present.
Definition offline : Env := host (Some clip) true classifier upload_down.

(** A container that opens and holds no frame that decodes. *)
Definition empty_clip : video :=
  {| declared_fps := Some 30%float; stream := []; seekable := true |}.
Definition truncated : Env := host (Some empty_clip) true classifier upload_if_present.

(** A container without a frame rate. *)
Definition unrated : Env :=
  host (Some {| declared_fps := None; stream := [picture 1 100 100]; seekable := true |})
       true classifier upload_if_present.

Definition one_frame (faces : list pyval) : Env :=
  host (Some {| declared_fps := Some 30%float; stream := [picture 1 100 100];
                seekable := true |})
       true (fun _ => Ok (PyList faces)) upload_if_present.

Definition clean (f : frame) : annot := {| a_frame := f; a_data := [] |}.

(** The loop after its first pass over [clip]. *)
Definition after_first_pass : loop_state :=
  {| frame_count := 1;
     emotions_data := [];
     st_cap := snd (read (snd (read (VideoCapture (Some clip)))));
     st_out := VideoWriter true "outputs/processed_6fa1.mp4" fourcc_mp4v 30%float
                 (100%positive, 100%positive);
     trace := [] |}.


(** A stream that cannot seek back to its first frame. *)
Definition live : Env :=
  host (Some {| declared_fps := Some 30%float;
                stream := [picture 1 100 100; picture 2 100 100; picture 3 100 100];
                seekable := false |})
       true classifier upload_if_present.

(** A classifier that finds nothing, and one of an old release that
    returns the one face as a dict. *)
Definition blind : Env := host (Some clip) true (fun _ => Ok (PyList [])) upload_if_present.
Definition old_release : Env :=
  host (Some clip) true (fun _ => Ok happy) upload_if_present.

(** An entry whose dominant label has no score. *)
Definition unscored : pyval :=
  PyDict [ ("emotion", PyDict [("sad", PyFloat 0.5)]);
           ("dominant_emotion", PyStr "happy");
           ("region", PyDict [("x", PyInt 10); ("y", PyInt 10);
                              ("w", PyInt 50); ("h", PyInt 50)]) ].

(** The same request on another host: other identifier, bucket, codec
    and uploader. *)
Definition elsewhere : Env :=
  {| uuid4 := "b3d0"; bucket_name := "archive";
     decode := fun _ => Some clip;
     can_encode := fun _ _ _ _ => false;
     analyze := classifier;
     parse_float := fun _ => None;
     upload_file := fun _ _ _ _ => Ok tt |}.

(** A client constructor that takes any region but one that is not a
    region name. *)
Definition boto3_client (key secret region : option string) : result unit :=
  match region with
  | Some r =>
      if String.eqb r "not a region!"
      then Raise (CollaboratorError "InvalidRegionError")
      else Ok tt
  | None => Ok tt
  end.

Definition environ : gmap string string :=
  list_to_map [ ("AWS_ACCESS_KEY_ID", "AKIA"); ("AWS_SECRET_ACCESS_KEY", "s3cr3t");
                ("AWS_REGION", "eu-west-1"); ("BUCKET_NAME", "clips") ].

Definition environ_bad_region : gmap string string :=
  <["AWS_REGION" := "not a region!"]> environ.

End Sample.

(* ===================================================================== *)
(** ** The exception-and-state steps *)

Section Steps.
Variable E : Env.

Lemma mbind_ok {A B} (m : M A) (k : A -> M B) a v a' :
  m a = (Ok v, a') -> mbind m k a = k v a'.
Proof. intros H. unfold mbind. now rewrite H. Qed.

Lemma mbind_raise {A B} (m : M A) (k : A -> M B) a e a' :
  m a = (Raise e, a') -> mbind m k a = (Raise e, a').
Proof. intros H. unfold mbind. now rewrite H. Qed.

Lemma mbind_lift {A B} (r : result A) (k : A -> M B) a :
  mbind (lift r) k a = match r with Ok v => k v a | Raise e => (Raise e, a) end.
Proof. unfold mbind, lift. now destruct r. Qed.

Lemma process_face_degenerate frame_count face x y w h a :
  read_region face = Ok (x, y, w, h) ->
  degenerate w h = true ->
  process_face E frame_count face a = (Ok tt, with_null frame_count a).
Proof.
  intros Hr Hd. unfold process_face. rewrite mbind_lift, Hr.
  unfold mbind, get_frame. now rewrite Hd.
Qed.

Lemma process_face_full frame_count face x y w h a :
  read_region face = Ok (x, y, w, h) ->
  full_frame w h (cols (a_frame a)) (rows (a_frame a)) = Ok true ->
  process_face E frame_count face a = (Ok tt, with_null frame_count a).
Proof.
  intros Hr Hf. unfold process_face. rewrite mbind_lift, Hr.
  unfold mbind at 1. unfold get_frame at 1. cbv beta iota.
  destruct (degenerate w h); [reflexivity|].
  now rewrite mbind_lift, Hf.
Qed.

End Steps.

(** *** The float threshold on whole pixels *)

Lemma Z_ge_float_mono n n' t :
  n <= n' -> Z_ge_float n t = true -> Z_ge_float n' t = true.
Proof.
  unfold Z_ge_float. intros Hle.
  destruct (Prim2SF t) as [s|s| |s m e]; try done.
  - rewrite !Z.leb_le. lia.
  - destruct (0 <=? e); rewrite !Z.leb_le.
    + lia.
    + assert (0 <= 2 ^ (- e)) by (apply Z.pow_nonneg; lia). nia.
Qed.

Lemma ceil95_spec n k : (ceil95 n <= k) <-> (95 * n <= 100 * k).
Proof.
  unfold ceil95.
  pose proof (Z.div_mod (19 * n + 19) 20 ltac:(lia)) as Hd.
  pose proof (Z.mod_pos_bound (19 * n + 19) 20 ltac:(lia)) as Hm.
  lia.
Qed.

Lemma threshold_exact_ge fw t n :
  threshold_exact fw = true ->
  int_mul_float (Z.pos fw) c095 = Ok t ->
  Z_ge_float n t = (95 * Z.pos fw <=? 100 * n).
Proof.
  unfold threshold_exact. intros Hc Ht. rewrite Ht in Hc.
  apply andb_prop in Hc as [Hup Hlow]. apply negb_true_iff in Hlow.
  destruct (Z_le_gt_dec (ceil95 (Z.pos fw)) n) as [Hn|Hn].
  - rewrite (Z_ge_float_mono _ _ _ Hn Hup). symmetry. apply Z.leb_le.
    now apply ceil95_spec.
  - destruct (Z_ge_float n t) eqn:Hge.
    + assert (Hm : n <= ceil95 (Z.pos fw) - 1) by lia.
      rewrite (Z_ge_float_mono _ _ _ Hm Hge) in Hlow. discriminate.
    + symmetry. apply Z.leb_gt.
      destruct (Z_le_gt_dec (95 * Z.pos fw) (100 * n)) as [Hc|Hc]; [|lia].
      apply ceil95_spec in Hc. lia.
Qed.

Lemma thresholds_exact_in n : forall from p,
  thresholds_exact n from = true ->
  (from <= p)%positive -> (Z.pos p < Z.pos from + Z.of_nat n) ->
  threshold_exact p = true.
Proof.
  induction n as [|n IH]; intros from p H Hlo Hhi; [lia|].
  cbn [thresholds_exact] in H. apply andb_prop in H as [Hhere Hrest].
  destruct (Pos.eq_dec from p) as [->|Hne]; [exact Hhere|].
  apply (IH (Pos.succ from)); [exact Hrest|lia|lia].
Qed.

Lemma thresholds_exact_65536 : thresholds_exact (2 ^ 16) 1 = true.
Proof. vm_compute. reflexivity. Qed.

Lemma threshold_exact_small fw :
  (fw <= 65536)%positive -> threshold_exact fw = true.
Proof.
  intros H. apply (thresholds_exact_in (2 ^ 16) 1 fw thresholds_exact_65536); [lia|].
  change (Z.of_nat (2 ^ 16)) with 65536. lia.
Qed.

Lemma full_frame_pixels fw fh wz hz :
  (fw <= 65536)%positive -> (fh <= 65536)%positive ->
  full_frame (PyInt wz) (PyInt hz) fw fh
  = Ok ((95 * Z.pos fw <=? 100 * wz) && (95 * Z.pos fh <=? 100 * hz)).
Proof.
  intros Hw Hh. unfold full_frame.
  pose proof (threshold_exact_small fw Hw) as Tw.
  pose proof (threshold_exact_small fh Hh) as Th.
  destruct (int_mul_float (Z.pos fw) c095) as [tw|e] eqn:Ew;
    [|unfold threshold_exact in Tw; rewrite Ew in Tw; discriminate].
  cbn [rbind ge_float]. rewrite (threshold_exact_ge fw tw wz Tw Ew).
  destruct (95 * Z.pos fw <=? 100 * wz); [|reflexivity].
  destruct (int_mul_float (Z.pos fh) c095) as [th|e] eqn:Eh;
    [|unfold threshold_exact in Th; rewrite Eh in Th; discriminate].
  cbn [rbind ge_float andb]. now rewrite (threshold_exact_ge fh th hz Th Eh).
Qed.

(* ===================================================================== *)
(** ** Every step of the [try] body is regular *)

Section Regular.
Variable E : Env.
Variable frame_count : Z.

Lemma draws_nil f : draws [] f = f.
Proof. destruct f. unfold draws. cbn. now rewrite app_nil_r. Qed.

Lemma draws_app ops ops' f : draws ops' (draws ops f) = draws (ops ++ ops') f.
Proof. unfold draws. cbn. now rewrite app_assoc. Qed.

Lemma draw_draws op f : draw op f = draws [op] f.
Proof. reflexivity. Qed.

Lemma regular_mret {A} (v : A) : regular frame_count (mret v).
Proof.
  intros f. exists (Ok v), [], []. split; [constructor|].
  intros d. unfold mret. now rewrite draws_nil, app_nil_r.
Qed.

Lemma regular_lift {A} (r : result A) : regular frame_count (lift r).
Proof.
  intros f. exists r, [], []. split; [constructor|].
  intros d. unfold lift. now rewrite draws_nil, app_nil_r.
Qed.

Lemma regular_get_frame : regular frame_count get_frame.
Proof.
  intros f. exists (Ok f), [], []. split; [constructor|].
  intros d. unfold get_frame. cbn. now rewrite draws_nil, app_nil_r.
Qed.

Lemma regular_append r :
  Rec.frame r = frame_count -> regular frame_count (append r).
Proof.
  intros Hr f. exists (Ok tt), [], [r]. split; [now constructor|].
  intros d. unfold append. cbn. now rewrite draws_nil.
Qed.

Lemma regular_rectangle pt1 pt2 c thickness :
  regular frame_count (rectangle pt1 pt2 c thickness).
Proof.
  intros f. unfold rectangle.
  destruct (rbind (as_point pt1) _) as [[p1 p2]|e].
  - exists (Ok tt), [Rectangle p1 p2 c thickness], []. split; [constructor|].
    intros d. cbn. now rewrite app_nil_r.
  - exists (Raise e), [], []. split; [constructor|].
    intros d. now rewrite draws_nil, app_nil_r.
Qed.

Lemma regular_putText text org font scale c thickness :
  regular frame_count (putText text org font scale c thickness).
Proof.
  intros f. unfold putText. destruct (as_point org) as [p|e].
  - exists (Ok tt), [PutText text p font scale c thickness], []. split; [constructor|].
    intros d. cbn. now rewrite app_nil_r.
  - exists (Raise e), [], []. split; [constructor|].
    intros d. now rewrite draws_nil, app_nil_r.
Qed.

Lemma regular_bind {A B} (m : M A) (k : A -> M B) :
  regular frame_count m -> (forall v, regular frame_count (k v)) ->
  regular frame_count (mbind m k).
Proof.
  intros Hm Hk f. destruct (Hm f) as (r & ops & new & Hnew & Hrun).
  destruct r as [v|e].
  - destruct (Hk v (draws ops f)) as (r' & ops' & new' & Hnew' & Hrun').
    exists r', (ops ++ ops'), (new ++ new'). split; [now apply Forall_app|].
    intros d. unfold mbind. rewrite Hrun, Hrun', draws_app. now rewrite app_assoc.
  - exists (Raise e), ops, new. split; [exact Hnew|].
    intros d. unfold mbind. now rewrite Hrun.
Qed.

Ltac regular_step :=
  first
    [ apply regular_mret | apply regular_lift | apply regular_get_frame
    | apply regular_rectangle | apply regular_putText
    | apply regular_append; reflexivity
    | apply regular_bind; [|intros ?] ].

Lemma regular_annotate_face face x y w h :
  regular frame_count (annotate_face E frame_count face x y w h).
Proof. unfold annotate_face. repeat regular_step. Qed.

Lemma regular_process_face face :
  regular frame_count (process_face E frame_count face).
Proof.
  unfold process_face. apply regular_bind; [apply regular_lift|].
  intros [[[x y] w] h]. apply regular_bind; [apply regular_get_frame|]. intros fr.
  destruct (degenerate w h); [apply regular_append; reflexivity|].
  apply regular_bind; [apply regular_lift|]. intros [|].
  - apply regular_append; reflexivity.
  - apply regular_annotate_face.
Qed.

Lemma regular_for_faces faces :
  regular frame_count (for_faces E frame_count faces).
Proof.
  induction faces as [|face rest IH]; cbn [for_faces].
  - apply regular_mret.
  - apply regular_bind; [apply regular_process_face|]. intros _. exact IH.
Qed.

Lemma regular_try_body : regular frame_count (try_body E frame_count).
Proof.
  unfold try_body. repeat regular_step. apply regular_for_faces.
Qed.

End Regular.

(* ===================================================================== *)
(** ** The loop *)

Section Loop.
Variable E : Env.
Variables width height : positive.

Lemma try_body_data frame_count f d :
  try_body E frame_count {| a_frame := f; a_data := d |}
  = (fst (try_body E frame_count {| a_frame := f; a_data := [] |}),
     {| a_frame := a_frame (snd (try_body E frame_count {| a_frame := f; a_data := [] |}));
        a_data := d ++ a_data (snd (try_body E frame_count {| a_frame := f; a_data := [] |})) |}).
Proof.
  destruct (regular_try_body E frame_count f) as (r & ops & new & _ & Hrun).
  now rewrite (Hrun d), (Hrun []).
Qed.

Lemma loop_body_closed f st :
  loop_body E width height f st
  = {| frame_count := frame_count st + 1;
       emotions_data :=
         emotions_data st ++ frame_records E (frame_count st + 1) width height f;
       st_cap := st_cap st;
       st_out := write (st_out st) (written_frame E (frame_count st + 1) width height f);
       trace := trace st ++ pass_events E (frame_count st + 1) width height f |}.
Proof.
  unfold loop_body, pass_events, frame_records, written_frame, frame_annot.
  rewrite try_body_data.
  destruct (try_body E (frame_count st + 1) _) as [[u|e] a]; cbn [fst snd].
  - reflexivity.
  - now rewrite <- app_assoc.
Qed.

(** With more fuel than frames left, the loop reads every frame and
    leaves by its [break]. *)
Lemma frame_loop_closed frames : forall fuel st,
  cap_opened (st_cap st) = true ->
  cap_pending (st_cap st) = frames ->
  (length frames < fuel)%nat ->
  frame_loop E fuel width height st = loop_result E width height st frames.
Proof.
  induction frames as [|f rest IH]; intros fuel st Hopen Hpend Hfuel;
    (destruct fuel as [|fuel]; [cbn in Hfuel; lia|]);
    destruct st as [fc data [op fps strm pend seek] o tr];
    cbn in Hopen, Hpend; subst op pend; unfold loop_result; cbn.
  - unfold drained. cbn. now rewrite Z.add_0_r, app_nil_r.
  - rewrite loop_body_closed. rewrite IH; cbn in *; [|reflexivity|reflexivity|lia].
    unfold loop_result, drained. cbn. rewrite <- !app_assoc. cbn.
    f_equal. lia.
Qed.

End Loop.

(* ===================================================================== *)
(** ** The request handler in closed form *)

Section Handler.
Variable E : Env.

Lemma read_some_opened c f c' : read c = (Some f, c') -> cap_opened c' = true.
Proof.
  unfold read. destruct (cap_opened c) eqn:Ho; [|discriminate].
  destruct (cap_pending c); [discriminate|]. now intros [= _ <-].
Qed.

Lemma rewind_opened c : cap_opened c = true -> cap_opened (rewind c) = true.
Proof. intros H. unfold rewind. rewrite H. now destruct (cap_seekable c). Qed.

Lemma fold_write_opened l : forall o,
  out_opened (fold_left write l o) = out_opened o.
Proof.
  induction l as [|f l IH]; intros o; [reflexivity|].
  cbn [fold_left]. rewrite IH. unfold write. now destruct (out_opened o) eqn:H.
Qed.

Lemma fold_write_frames l : forall o,
  out_frames (fold_left write l o)
  = if out_opened o then out_frames o ++ l else out_frames o.
Proof.
  induction l as [|f l IH]; intros o; cbn [fold_left].
  - destruct (out_opened o); [now rewrite app_nil_r|reflexivity].
  - rewrite IH. unfold write. destruct (out_opened o) eqn:H; cbn; [|now rewrite H].
    now rewrite <- app_assoc.
Qed.

Lemma process_video_no_payload fs :
  process_video E None fs
  = {| resp := NoVideo; disk := fs; end_cap := None; end_out := None; events := [] |}.
Proof. reflexivity. Qed.

Lemma process_video_unreadable video_file fs c :
  first_read E video_file = (None, c) ->
  process_video E (Some video_file) fs
  = {| resp := ReadFailed;
       disk := <[input_path_of (uuid4 E) := Uploaded video_file]> fs;
       end_cap := Some c; end_out := None; events := [EvRead None] |}.
Proof. unfold first_read, process_video. now intros ->. Qed.

Lemma process_video_closed video_file fs first c :
  first_read E video_file = (Some first, c) ->
  process_video E (Some video_file) fs = run_closed E video_file first fs.
Proof.
  intros Hread.
  assert (Hopen : cap_opened (rewind c) = true)
    by (apply rewind_opened; exact (read_some_opened _ _ _ Hread)).
  unfold process_video, run_closed, upload_result, disk_at_upload, upload_call,
    loop_start, loop_frames, sink_constructed, s3_key_of, fourcc_mp4v.
  unfold first_read in *. rewrite Hread. cbn [snd].
  rewrite (frame_loop_closed E _ _ (cap_pending (rewind c))) by (cbn; auto; lia).
  unfold loop_result. cbn [emotions_data st_cap st_out trace frame_count].
  rewrite fold_write_opened, fold_write_frames.
  cbn [VideoWriter out_opened out_frames app].
  destruct (can_encode E _ _ _ _); destruct (upload_file E _ _ _ _);
    cbn [app]; rewrite <- ?app_assoc; reflexivity.
Qed.

End Handler.

(* ===================================================================== *)
(** ** One frame out for every frame in *)

Section FrameCount.
Variable E : Env.
Variables width height : positive.

Lemma writes_app t1 t2 : writes (t1 ++ t2) = writes t1 ++ writes t2.
Proof.
  induction t1 as [|ev t1 IH]; [reflexivity|].
  destruct ev as [[g|]| | | | | |]; cbn; now rewrite ?IH.
Qed.

Lemma reads_app t1 t2 : reads (t1 ++ t2) = reads t1 ++ reads t2.
Proof.
  induction t1 as [|ev t1 IH]; [reflexivity|].
  destruct ev as [[g|]| | | | | |]; cbn; now rewrite ?IH.
Qed.

Lemma fit_pixels f : pixels (fit width height f) = pixels f.
Proof. unfold fit. now destruct (_ || _). Qed.

Lemma fit_size f :
  cols (fit width height f) = width /\ rows (fit width height f) = height.
Proof.
  unfold fit.
  destruct (cols f =? width)%positive eqn:Hc, (rows f =? height)%positive eqn:Hr;
    cbn; auto.
  apply Pos.eqb_eq in Hc, Hr. auto.
Qed.

(** The frame that is written is the frame that was read, at the size of
    the output, with what the pass drew on it. *)
Lemma written_frame_draws frame_count f :
  exists ops, written_frame E frame_count width height f = draws ops (fit width height f).
Proof.
  unfold written_frame, frame_annot.
  destruct (regular_try_body E frame_count (fit width height f))
    as (r & ops & new & _ & Hrun).
  exists ops. now rewrite Hrun.
Qed.

Lemma written_frame_pixels frame_count f :
  pixels (written_frame E frame_count width height f) = pixels f.
Proof.
  destruct (written_frame_draws frame_count f) as [ops ->]. cbn. apply fit_pixels.
Qed.

Lemma written_frame_size frame_count f :
  cols (written_frame E frame_count width height f) = width
  /\ rows (written_frame E frame_count width height f) = height.
Proof.
  destruct (written_frame_draws frame_count f) as [ops ->]. cbn. apply fit_size.
Qed.

Lemma writes_pass frame_count f :
  writes (pass_events E frame_count width height f)
  = [written_frame E frame_count width height f].
Proof. unfold pass_events. now destruct (fst _). Qed.

Lemma reads_pass frame_count f :
  reads (pass_events E frame_count width height f) = [].
Proof. unfold pass_events. now destruct (fst _). Qed.

Lemma writes_loop frames : forall frame_count,
  writes (loop_events E width height frame_count frames)
  = outputs_from E width height frame_count frames.
Proof.
  induction frames as [|f rest IH]; intros fc; [reflexivity|].
  cbn [loop_events outputs_from writes]. now rewrite writes_app, writes_pass, IH.
Qed.

Lemma reads_loop frames : forall frame_count,
  reads (loop_events E width height frame_count frames) = frames.
Proof.
  induction frames as [|f rest IH]; intros fc; [reflexivity|].
  cbn [loop_events reads]. now rewrite reads_app, reads_pass, IH.
Qed.

Lemma outputs_pixels frames : forall frame_count,
  map pixels (outputs_from E width height frame_count frames) = map pixels frames.
Proof.
  induction frames as [|f rest IH]; intros fc; [reflexivity|].
  cbn [outputs_from map]. now rewrite written_frame_pixels, IH.
Qed.

Lemma paired_pass frame_count f t :
  paired width height (Some f) (pass_events E frame_count width height f ++ t)
  = paired width height None t.
Proof.
  unfold pass_events.
  destruct (written_frame_size frame_count f) as [Hc Hr].
  assert (Hw : paired width height (Some f)
                 (EvWrite (written_frame E frame_count width height f) :: t)
               = paired width height None t).
  { cbn [paired]. rewrite written_frame_pixels, Hc, Hr.
    now rewrite Nat.eqb_refl, !Pos.eqb_refl. }
  destruct (fst _); cbn [app]; [exact Hw|]. cbn [paired]. exact Hw.
Qed.

Lemma paired_loop frames : forall frame_count t,
  paired width height None (loop_events E width height frame_count frames ++ t)
  = paired width height None t.
Proof.
  induction frames as [|f rest IH]; intros fc t; [reflexivity|].
  cbn [loop_events app paired]. now rewrite <- app_assoc, paired_pass, IH.
Qed.

End FrameCount.

(** C1.  Whatever the request and whatever the classifier does, the frames
    handed to [out.write] are the frames read in the loop, one for one and
    in the same order; each is written, at the size of the output, before
    the next one is read, and nothing is written outside the loop.  When
    the writer was constructed, these are the frames of the container. *)
Theorem one_frame_written_per_frame_read
    (E : Env) (request_files : option payload) (fs : gmap string file) :
  let o := process_video E request_files fs in
  map pixels (writes (events o)) = map pixels (reads (after_rewind (events o)))
  /\ writes (after_rewind (events o)) = writes (events o)
  /\ forall video_file first c,
       request_files = Some video_file ->
       first_read E video_file = (Some first, c) ->
       reads (after_rewind (events o)) = loop_frames E video_file
       /\ paired (cols first) (rows first) None (after_rewind (events o)) = true
       /\ (sink_constructed E video_file first = true ->
           exists w, end_out o = Some w
             /\ out_frames w = writes (events o)
             /\ disk o !! output_path_of (uuid4 E)
                = Some (Encoded (output_fps (VideoCapture (decode E video_file)))
                          (cols first, rows first) (writes (events o)))).
Proof.
  destruct request_files as [video_file|]; cbn zeta.
  2:{ cbn. split; [reflexivity|]. split; [reflexivity|]. intros ? ? ? [=]. }
  destruct (first_read E video_file) as [[first|] c] eqn:Hread.
  2:{ rewrite (process_video_unreadable E _ _ _ Hread). cbn.
      split; [reflexivity|]. split; [reflexivity|].
      intros ? ? ? [= <-]. rewrite Hread. intros [=]. }
  rewrite (process_video_closed E _ _ _ _ Hread).
  assert (Hafter : after_rewind (events (run_closed E video_file first fs))
                   = loop_events E (cols first) (rows first) 0 (loop_frames E video_file)
                     ++ [EvCapRelease; EvOutRelease] ++ [upload_call E]) by reflexivity.
  assert (Hwrites : writes (events (run_closed E video_file first fs))
                    = outputs_from E (cols first) (rows first) 0 (loop_frames E video_file)).
  { cbn [events run_closed]. rewrite !writes_app, writes_loop. cbn.
    now rewrite app_nil_r. }
  rewrite Hafter, Hwrites, writes_app, reads_app, writes_loop, reads_loop.
  cbn [writes reads app upload_call]. rewrite !app_nil_r.
  split; [apply outputs_pixels|]. split; [reflexivity|].
  intros v first' c' [= <-]. rewrite Hread. intros [= <- <-].
  split; [reflexivity|]. split; [now rewrite paired_loop|].
  intros Hsink. eexists. split; [reflexivity|]. split.
  - cbn [run_closed end_out out_release out_frames].
    rewrite fold_write_frames. cbn. now rewrite Hsink.
  - cbn [run_closed disk]. unfold disk_at_upload. rewrite Hsink.
    apply lookup_insert_eq.
Qed.

(** Three frames in, three frames out: an annotated one, a resized one
    on which a detection failed, and one on which the classifier raised. *)
Lemma one_frame_written_per_frame_read_witness :
  let o := process_video Sample.studio (Some []) ∅ in
  fst (first_read Sample.studio []) = Some (Sample.picture 1 100 100)
  /\ sink_constructed Sample.studio [] (Sample.picture 1 100 100) = true
  /\ map pixels (writes (events o)) = map pixels (reads (after_rewind (events o)))
  /\ reads (after_rewind (events o)) = stream Sample.clip
  /\ paired 100 100 None (after_rewind (events o)) = true
  /\ exists w, end_out o = Some w /\ out_frames w = writes (events o).
Proof.
  intros o.
  destruct (one_frame_written_per_frame_read Sample.studio (Some []) ∅)
    as (Hpix & _ & Hloop).
  destruct (Hloop [] (Sample.picture 1 100 100) _ eq_refl eq_refl)
    as (Hreads & Hpaired & Hsink).
  destruct (Hsink eq_refl) as (w & Hw & Hframes & _).
  split; [reflexivity|]. split; [reflexivity|]. split; [exact Hpix|].
  split; [exact Hreads|]. split; [exact Hpaired|].
  exists w. split; [exact Hw|exact Hframes].
Defined.
(* ===================================================================== *)
(** ** One detection, step by step *)

Section Detection.
Variable E : Env.

Lemma mbind_rectangle {B} pt1 pt2 c thickness (k : unit -> M B) a :
  mbind (rectangle pt1 pt2 c thickness) k a
  = match (p1 <- as_point pt1 ;; p2 <- as_point pt2 ;; Ok (p1, p2))%result with
    | Ok (p1, p2) =>
        k tt {| a_frame := draw (Rectangle p1 p2 c thickness) (a_frame a);
                a_data := a_data a |}
    | Raise e => (Raise e, a)
    end.
Proof. unfold mbind, rectangle. now destruct (rbind _ _) as [[p1 p2]|e]. Qed.

Lemma mbind_putText {B} text org font scale c thickness (k : unit -> M B) a :
  mbind (putText text org font scale c thickness) k a
  = match as_point org with
    | Ok p =>
        k tt {| a_frame := draw (PutText text p font scale c thickness) (a_frame a);
                a_data := a_data a |}
    | Raise e => (Raise e, a)
    end.
Proof. unfold mbind, putText. now destruct (as_point org). Qed.

Lemma mbind_append {B} r (k : unit -> M B) a :
  mbind (append r) k a = k tt {| a_frame := a_frame a; a_data := a_data a ++ [r] |}.
Proof. reflexivity. Qed.

Lemma to_float_format parse score s :
  format_2f score = Ok s -> to_float parse score = Ok s.
Proof. destruct score; cbn; congruence. Qed.

Lemma fmt_label_format emotion score text :
  fmt_label emotion score = Ok text ->
  format_2f score = Ok (label_score text).
Proof.
  unfold fmt_label. destruct (format_2f score); cbn; [|discriminate].
  now intros [= <-].
Qed.

Ltac close_raise :=
  cbn [a_frame a_data];
  first
    [ exists []; rewrite draws_nil; match goal with a : annot |- _ => now destruct a end
    | eexists; rewrite ?draw_draws, ?draws_app; reflexivity ].

Ltac walk_step :=
  first [ rewrite mbind_lift | rewrite mbind_rectangle
        | rewrite mbind_putText | rewrite mbind_append ];
  cbv beta iota; cbn [a_frame a_data];
  try match goal with
      | |- context [match ?r with Ok _ => _ | Raise _ => _ end] =>
          lazymatch r with Ok _ => fail | Raise _ => fail | _ => idtac end;
          destruct r as [?|?] eqn:?; [|close_raise]
      end;
  try match goal with p : (point * point)%type |- _ => destruct p end.

Lemma annotate_face_cases frame_count face x y w h a :
  match annotate_face E frame_count face x y w h a with
  | (Ok _, a') =>
      exists emotion scores score conf ops,
        getitem face (PyStr "dominant_emotion") = Ok emotion
        /\ getitem face (PyStr "emotion") = Ok scores
        /\ getitem scores emotion = Ok score
        /\ format_2f score = Ok conf
        /\ a' = {| a_frame := draws ops (a_frame a);
                   a_data := a_data a ++
                     [{| Rec.frame := frame_count; Rec.face_detected := true;
                         Rec.x := x; Rec.y := y; Rec.width := w; Rec.height := h;
                         Rec.emotion := emotion; Rec.confidence := PyFloat conf |}] |}
  | (Raise _, a') =>
      exists ops, a' = {| a_frame := draws ops (a_frame a); a_data := a_data a |}
  end.
Proof.
  unfold annotate_face.
  do 16 walk_step.
  rewrite (to_float_format _ _ _ (fmt_label_format _ _ _ ltac:(eassumption))).
  do 3 walk_step. unfold mret.
  do 5 eexists. repeat (split; [eassumption || reflexivity|]).
  split; [eapply fmt_label_format; eassumption|].
  rewrite ?draw_draws, ?draws_app. reflexivity.
Qed.

Lemma process_face_cases frame_count face a :
  match process_face E frame_count face a with
  | (Ok _, a') =>
      exists r ops,
        Rec.frame r = frame_count
        /\ a' = {| a_frame := draws ops (a_frame a); a_data := a_data a ++ [r] |}
  | (Raise _, a') =>
      exists ops, a' = {| a_frame := draws ops (a_frame a); a_data := a_data a |}
  end.
Proof.
  assert (Hnull : exists r ops,
             Rec.frame r = frame_count
             /\ {| a_frame := a_frame a; a_data := a_data a ++ [null_record frame_count] |}
                = {| a_frame := draws ops (a_frame a); a_data := a_data a ++ [r] |}).
  { exists (null_record frame_count), []. now rewrite draws_nil. }
  unfold process_face. rewrite mbind_lift.
  destruct (read_region face) as [[[[x y] w] h]|e]; [|close_raise].
  unfold mbind at 1. unfold get_frame at 1. cbv beta iota.
  destruct (degenerate w h); [exact Hnull|].
  rewrite mbind_lift. destruct (full_frame w h _ _) as [[|]|e]; [exact Hnull| |close_raise].
  pose proof (annotate_face_cases frame_count face x y w h a) as H.
  destruct (annotate_face E frame_count face x y w h a) as [[u|e] a']; [|exact H].
  destruct H as (emotion & scores & score & conf & ops & _ & _ & _ & _ & ->).
  eexists _, ops. split; [|reflexivity]. reflexivity.
Qed.

Lemma for_faces_app frame_count l1 l2 a :
  for_faces E frame_count (l1 ++ l2) a
  = match for_faces E frame_count l1 a with
    | (Ok _, a1) => for_faces E frame_count l2 a1
    | (Raise e, a1) => (Raise e, a1)
    end.
Proof.
  revert a. induction l1 as [|face l1 IH]; intros a; [reflexivity|].
  cbn [for_faces app]. unfold mbind.
  destruct (process_face E frame_count face a) as [[u|e] a1]; [apply IH|reflexivity].
Qed.

(** Every detection that is processed without an exception leaves one
    record. *)
Lemma for_faces_count frame_count faces : forall a a',
  for_faces E frame_count faces a = (Ok tt, a') ->
  length (a_data a') = (length (a_data a) + length faces)%nat.
Proof.
  induction faces as [|face rest IH]; intros a a'; cbn [for_faces].
  - unfold mret. intros [= <-]. cbn. lia.
  - unfold mbind. pose proof (process_face_cases frame_count face a) as H.
    destruct (process_face E frame_count face a) as [[u|e] a1]; [|discriminate].
    destruct H as (r & ops & _ & ->). intros Hrest.
    rewrite (IH _ _ Hrest). cbn. rewrite length_app. cbn. lia.
Qed.

Lemma try_body_unfold frame_count a :
  try_body E frame_count a
  = match analyze E (a_frame a) with
    | Ok res =>
        match iter res with
        | Ok faces => for_faces E frame_count faces a
        | Raise e => (Raise e, a)
        end
    | Raise e => (Raise e, a)
    end.
Proof.
  unfold try_body, mbind, get_frame, lift.
  destruct (analyze E (a_frame a)) as [res|e]; [|reflexivity].
  now destruct (iter res).
Qed.

End Detection.

(* ===================================================================== *)
(** ** The log of records *)

Section Log.
Variable E : Env.
Variables width height : positive.

Lemma frame_records_stamped k f :
  Forall (fun r => Rec.frame r = k) (frame_records E k width height f).
Proof.
  unfold frame_records, frame_annot.
  destruct (regular_try_body E k (fit width height f)) as (r & ops & new & Hnew & Hrun).
  now rewrite Hrun.
Qed.

Lemma records_from_imap frames : forall k,
  records_from E width height k frames
  = concat (imap (fun i f => frame_records E (k + Z.of_nat i + 1) width height f) frames).
Proof.
  induction frames as [|f rest IH]; intros k; [reflexivity|].
  cbn [records_from imap concat]. rewrite IH, Z.add_0_r. do 2 f_equal.
  apply imap_ext. intros i x _. cbn. f_equal. lia.
Qed.

Lemma records_from_bounds frames : forall k,
  Forall (fun r => k + 1 <= Rec.frame r <= k + Z.of_nat (length frames))
    (records_from E width height k frames).
Proof.
  induction frames as [|f rest IH]; intros k; [constructor|].
  cbn [records_from length]. apply Forall_app. split.
  - eapply Forall_impl; [apply frame_records_stamped|]. cbn. intros r ->. lia.
  - eapply Forall_impl; [apply IH|]. cbn. intros r Hr. lia.
Qed.

Lemma sorted_block c l1 : forall l2,
  Forall (eq c) l1 -> Forall (Z.le c) l2 -> StronglySorted Z.le l2 ->
  StronglySorted Z.le (l1 ++ l2).
Proof.
  induction l1 as [|x l1 IH]; intros l2 H1 H2 Hs; [exact Hs|].
  apply Forall_cons_iff in H1 as [<- H1]. cbn. constructor.
  - now apply IH.
  - apply Forall_app. split; [|exact H2].
    eapply Forall_impl; [exact H1|]. intros y <-. lia.
Qed.

Lemma records_from_sorted frames : forall k,
  StronglySorted Z.le (map Rec.frame (records_from E width height k frames)).
Proof.
  induction frames as [|f rest IH]; intros k; [constructor|].
  cbn [records_from]. rewrite map_app. apply (sorted_block (k + 1)).
  - pose proof (frame_records_stamped (k + 1) f) as H.
    induction H as [|r l Hr _ IHl]; cbn; constructor; auto.
  - pose proof (records_from_bounds rest (k + 1)) as H.
    induction H as [|r l Hr _ IHl]; cbn; constructor; [lia|auto].
  - apply IH.
Qed.

(** A frame whose detections are all processed without an exception
    adds one record for each of them. *)
Lemma frame_records_count k f res faces :
  analyze E (fit width height f) = Ok res ->
  iter res = Ok faces ->
  fst (frame_annot E k width height f) = Ok tt ->
  length (frame_records E k width height f) = length faces.
Proof.
  unfold frame_records, frame_annot. rewrite try_body_unfold. cbn [a_frame].
  intros -> ->.
  destruct (for_faces E k faces _) as [[[]|e] a'] eqn:Hrun; [|discriminate].
  intros _. cbn [snd]. now rewrite (for_faces_count E k faces _ _ Hrun).
Qed.

End Log.

(** C8.  The records that a request returns are those of the first frame
    of the loop, then those of the second, and so on; the records of the
    i-th frame all carry the number i, counted from 1, so the numbers never
    decrease along the list; and a frame with several detections, all
    processed, has that many records under its one number. *)
Theorem records_in_frame_order
    (E : Env) (video_file : payload) (fs : gmap string file)
    (first : frame) (c : capture) (path url : string) (results : list FrameRecord) :
  first_read E video_file = (Some first, c) ->
  resp (process_video E (Some video_file) fs) = Processed path url results ->
  let width := cols first in
  let height := rows first in
  let frames := loop_frames E video_file in
  results
  = concat (imap (fun i f => frame_records E (Z.of_nat i + 1) width height f) frames)
  /\ (forall i f,
        Forall (fun r => Rec.frame r = Z.of_nat i + 1)
          (frame_records E (Z.of_nat i + 1) width height f))
  /\ StronglySorted Z.le (map Rec.frame results)
  /\ Forall (fun r => 1 <= Rec.frame r <= Z.of_nat (length frames)) results
  /\ (forall k f res faces,
        analyze E (fit width height f) = Ok res ->
        iter res = Ok faces ->
        fst (frame_annot E k width height f) = Ok tt ->
        length (frame_records E k width height f) = length faces
        /\ Forall (fun r => Rec.frame r = k) (frame_records E k width height f)).
Proof.
  intros Hread Hresp width height frames.
  rewrite (process_video_closed E _ _ _ _ Hread) in Hresp.
  cbn [resp run_closed] in Hresp.
  destruct (upload_result E video_file first fs); [|discriminate].
  injection Hresp as _ _ <-. fold width height frames.
  split; [apply records_from_imap|].
  split; [intros i f; apply frame_records_stamped|].
  split; [apply records_from_sorted|].
  split; [apply (records_from_bounds E width height frames 0)|].
  intros k f res faces Ha Hi Hok. split.
  - now apply frame_records_count with res.
  - apply frame_records_stamped.
Qed.

(** The second frame of the sample has two detections that are processed:
    two records, both numbered 2, after the record of frame 1. *)
Lemma records_in_frame_order_witness :
  exists path url results,
    resp (process_video Sample.studio (Some []) ∅) = Processed path url results
    /\ map Rec.frame results = [1; 2; 2]
    /\ StronglySorted Z.le (map Rec.frame results)
    /\ Forall (fun r => 1 <= Rec.frame r <= 3) results.
Proof.
  eexists _, _, _.
  match goal with |- ?G /\ _ => assert (Hresp : G) by (vm_compute; reflexivity) end.
  split; [exact Hresp|]. split; [reflexivity|].
  destruct (records_in_frame_order Sample.studio [] ∅ (Sample.picture 1 100 100)
              _ _ _ _ eq_refl Hresp) as (_ & _ & Hsorted & Hbounds & _).
  split; [exact Hsorted|exact Hbounds].
Defined.

(* ===================================================================== *)
(** ** A frame on which inference fails *)

(** In the second frame of the sample the third entry is malformed: the
    null record and the record of the two entries before it stay, and so
    do the boxes and the text drawn for the second. *)
Lemma failed_frame_keeps_earlier_detections :
  ~ failure_leaves_frame_untouched Sample.studio.
Proof.
  intros H.
  destruct (H 100%positive 100%positive (Sample.picture 2 50 50)
              Sample.after_first_pass KeyError eq_refl) as [Hdata _].
  vm_compute in Hdata. discriminate Hdata.
Qed.

(** C3, as the code has it.  When the [try] body of a pass raises, the
    exception is caught in the pass: the handler logs it, the frame is
    written once all the same and the loop goes on with the state of the
    pass.  When the classifier call itself raises, or its result cannot be
    iterated, the pass adds no record and the frame is written as it was
    read, only resized to the output.  When the exception comes from one of
    the detections, the records of the detections before it stay, one for
    each, and the frame is written with what had been drawn on it up to the
    exception. *)
Theorem classifier_failure_contained
    (E : Env) (width height : positive) (f : frame) (st : loop_state) (e : exn) :
  let k := frame_count st + 1 in
  let st' := loop_body E width height f st in
  fst (frame_annot E k width height f) = Raise e ->
  frame_count st' = k
  /\ st_cap st' = st_cap st
  /\ st_out st' = write (st_out st) (written_frame E k width height f)
  /\ trace st' = trace st ++ [EvWarn k e; EvWrite (written_frame E k width height f)]
  /\ (analyze E (fit width height f) = Raise e
      \/ (exists res, analyze E (fit width height f) = Ok res /\ iter res = Raise e) ->
      emotions_data st' = emotions_data st
      /\ written_frame E k width height f = fit width height f)
  /\ (forall res faces done bad rest a1 a2 e',
        analyze E (fit width height f) = Ok res ->
        iter res = Ok faces ->
        faces = done ++ bad :: rest ->
        for_faces E k done {| a_frame := fit width height f; a_data := [] |} = (Ok tt, a1) ->
        process_face E k bad a1 = (Raise e', a2) ->
        e' = e
        /\ emotions_data st' = emotions_data st ++ a_data a1
        /\ length (a_data a1) = length done
        /\ written_frame E k width height f = a_frame a2
        /\ exists ops, a_frame a2 = draws ops (a_frame a1)).
Proof.
  intros k st' Hraise. subst st'. rewrite loop_body_closed. fold k.
  cbn [frame_count st_cap st_out trace emotions_data].
  split; [reflexivity|]. split; [reflexivity|]. split; [reflexivity|].
  split; [unfold pass_events; now rewrite Hraise|].
  unfold frame_records, written_frame. unfold frame_annot in *.
  rewrite try_body_unfold in *. cbn [a_frame] in *. split.
  - intros [Ha|(res & Ha & Hi)]; rewrite Ha; [|rewrite Hi]; cbn;
      now rewrite app_nil_r.
  - intros res faces done bad rest a1 a2 e' Ha Hi -> Hdone Hbad.
    rewrite Ha, Hi in *. rewrite for_faces_app, Hdone in *.
    cbn [for_faces] in *. rewrite (mbind_raise _ _ _ _ _ Hbad) in *.
    cbn [fst snd] in *. injection Hraise as <-.
    pose proof (process_face_cases E k bad a1) as Hc. rewrite Hbad in Hc.
    destruct Hc as (ops & ->). cbn [a_data a_frame].
    split; [reflexivity|]. split; [reflexivity|].
    split; [exact (for_faces_count E k done _ _ Hdone)|].
    split; [reflexivity|]. now exists ops.
Qed.

(** The second frame of the sample: two records stay, the exception of
    the third entry is logged, and the frame is written. *)
Lemma classifier_failure_contained_witness :
  let st' := loop_body Sample.studio 100 100 (Sample.picture 2 50 50) Sample.after_first_pass in
  fst (frame_annot Sample.studio 2 100 100 (Sample.picture 2 50 50)) = Raise KeyError
  /\ frame_count st' = 2
  /\ trace st'
     = [EvWarn 2 KeyError;
        EvWrite (written_frame Sample.studio 2 100 100 (Sample.picture 2 50 50))]
  /\ length (emotions_data st') = 2%nat.
Proof.
  intros st'.
  destruct (classifier_failure_contained Sample.studio 100 100 (Sample.picture 2 50 50)
              Sample.after_first_pass KeyError eq_refl)
    as (Hcount & _ & _ & Htrace & _ & Hpart).
  destruct (Hpart (PyList [Sample.whole_frame; Sample.happy; Sample.malformed])
              [Sample.whole_frame; Sample.happy; Sample.malformed]
              [Sample.whole_frame; Sample.happy] Sample.malformed [] _ _ KeyError
              eq_refl eq_refl eq_refl eq_refl eq_refl)
    as (_ & Hdata & Hlen & _).
  split; [reflexivity|]. split; [exact Hcount|]. split; [exact Htrace|].
  subst st'. rewrite Hdata. exact Hlen.
Defined.

(* ===================================================================== *)
(** ** The record of a valid detection *)

(** A classifier that reports 87.5 (per cent) for the dominant label:
    the record holds 87.5. *)
Lemma confidence_is_not_normalised :
  ~ valid_records_normalised (Sample.one_frame [Sample.percent]) (Some []) ∅.
Proof.
  intros H.
  destruct (H _ _ _ _ eq_refl (or_introl eq_refl) eq_refl) as [(c & Hc & Hunit) _].
  injection Hc as <-. vm_compute in Hunit. discriminate Hunit.
Qed.

(** An empty dominant label is stored as it is. *)
Lemma empty_label_is_kept :
  ~ valid_records_normalised (Sample.one_frame [Sample.unnamed]) (Some []) ∅.
Proof.
  intros H.
  destruct (H _ _ _ _ eq_refl (or_introl eq_refl) eq_refl) as [_ (s & Hs & Hne)].
  injection Hs as <-. now apply Hne.
Qed.

(** C4, as the code has it.  A detection that passes both filters and is
    processed without an exception leaves one record with [face_detected]
    true, the region as received, the dominant label as received, and as
    confidence the score that the classifier gave that label, converted to
    a float: nothing brings it into [0, 1] and nothing asks for a label
    that is not empty. *)
Theorem valid_detection_record
    (E : Env) (k : Z) (face x y w h : pyval) (a a' : annot) :
  read_region face = Ok (x, y, w, h) ->
  degenerate w h = false ->
  full_frame w h (cols (a_frame a)) (rows (a_frame a)) = Ok false ->
  process_face E k face a = (Ok tt, a') ->
  exists emotion scores score conf,
    getitem face (PyStr "dominant_emotion") = Ok emotion
    /\ getitem face (PyStr "emotion") = Ok scores
    /\ getitem scores emotion = Ok score
    /\ match score with
       | PyFloat s => conf = s
       | PyInt n => float_of_Z n = Ok conf
       | _ => False
       end
    /\ a_data a'
       = a_data a ++
         [{| Rec.frame := k; Rec.face_detected := true;
             Rec.x := x; Rec.y := y; Rec.width := w; Rec.height := h;
             Rec.emotion := emotion; Rec.confidence := PyFloat conf |}].
Proof.
  intros Hr Hd Hf. unfold process_face. rewrite mbind_lift, Hr.
  unfold mbind at 1. unfold get_frame at 1. cbv beta iota. rewrite Hd.
  rewrite mbind_lift, Hf.
  pose proof (annotate_face_cases E k face x y w h a) as H.
  destruct (annotate_face E k face x y w h a) as [[u|e] a1]; [|discriminate].
  destruct H as (emotion & scores & score & conf & ops & He & Hs & Hsc & Hfmt & ->).
  destruct u. intros [= <-]. exists emotion, scores, score, conf.
  split; [exact He|]. split; [exact Hs|]. split; [exact Hsc|].
  destruct score as [|n|s| | |]; cbn in Hfmt; try discriminate.
  - split; [exact Hfmt|reflexivity].
  - injection Hfmt as <-. split; reflexivity.
Qed.

(** The detection scored in per cent: its record holds 87.5. *)
Lemma valid_detection_record_witness :
  exists a',
    process_face (Sample.one_frame [Sample.percent]) 1 Sample.percent
      (Sample.clean (Sample.picture 1 100 100)) = (Ok tt, a')
    /\ map Rec.confidence (a_data a') = [PyFloat 87.5]
    /\ map Rec.emotion (a_data a') = [PyStr "happy"].
Proof.
  eexists.
  match goal with |- ?G /\ _ => assert (Hrun : G) by (vm_compute; reflexivity) end.
  split; [exact Hrun|].
  destruct (valid_detection_record (Sample.one_frame [Sample.percent]) 1 Sample.percent
              (PyInt 10) (PyInt 10) (PyInt 50) (PyInt 50)
              (Sample.clean (Sample.picture 1 100 100)) _
              eq_refl eq_refl eq_refl Hrun)
    as (emotion & scores & score & conf & He & Hs & Hsc & Hconf & Hdata).
  injection He as <-. injection Hs as <-. injection Hsc as <-. subst conf.
  rewrite Hdata. split; reflexivity.
Defined.

(* ===================================================================== *)
(** ** Streams, disk and upload *)

Section Streams.
Variable E : Env.

Lemma filter_upload_loop width height frames : forall k,
  List.filter is_upload (loop_events E width height k frames) = [].
Proof.
  induction frames as [|f rest IH]; intros k; [reflexivity|].
  cbn [loop_events List.filter is_upload]. rewrite List.filter_app, IH, app_nil_r.
  unfold pass_events. now destruct (fst _).
Qed.

Lemma filter_release_loop width height frames : forall k,
  List.filter is_release (loop_events E width height k frames) = [].
Proof.
  induction frames as [|f rest IH]; intros k; [reflexivity|].
  cbn [loop_events List.filter is_release]. rewrite List.filter_app, IH, app_nil_r.
  unfold pass_events. now destruct (fst _).
Qed.

Lemma fold_write_fps l : forall o, out_fps (fold_left write l o) = out_fps o.
Proof.
  induction l as [|f l IH]; intros o; [reflexivity|].
  cbn [fold_left]. rewrite IH. unfold write. now destruct (out_opened o).
Qed.

Lemma paths_differ (unique_id : string) :
  input_path_of unique_id <> output_path_of unique_id.
Proof.
  intros H. apply (f_equal (String.get 0)) in H. vm_compute in H. discriminate H.
Qed.

Lemma disk_at_upload_input video_file first fs :
  disk_at_upload E video_file first fs !! input_path_of (uuid4 E)
  = Some (Uploaded video_file).
Proof.
  unfold disk_at_upload. pose proof (paths_differ (uuid4 E)) as Hne.
  destruct (sink_constructed E video_file first).
  - rewrite !lookup_insert_ne by congruence. apply lookup_insert_eq.
  - apply lookup_insert_eq.
Qed.

Lemma disk_at_upload_keeps video_file first fs p :
  is_Some (fs !! p) -> is_Some (disk_at_upload E video_file first fs !! p).
Proof.
  intros Hp. unfold disk_at_upload.
  destruct (sink_constructed E video_file first);
    rewrite ?lookup_insert; repeat case_decide; eauto.
Qed.

(** A request that gets to the loop releases both streams after it and
    only then calls the uploader, once. *)
Lemma streams_released_before_upload video_file fs first c :
  first_read E video_file = (Some first, c) ->
  let o := process_video E (Some video_file) fs in
  (exists before,
      events o = before ++ [EvCapRelease; EvOutRelease; upload_call E]
      /\ List.filter is_release before = []
      /\ List.filter is_upload before = [])
  /\ (exists cap', end_cap o = Some cap' /\ cap_opened cap' = false)
  /\ (exists out', end_out o = Some out' /\ out_opened out' = false).
Proof.
  intros Hread. cbn zeta. rewrite (process_video_closed E _ _ _ _ Hread).
  cbn [run_closed events end_cap end_out]. split; [|split].
  - eexists. split; [reflexivity|].
    rewrite !List.filter_app, filter_release_loop, filter_upload_loop. now cbn.
  - eexists. split; reflexivity.
  - eexists. split; reflexivity.
Qed.

End Streams.

(** *** When the writer cannot be constructed *)

(** Without a codec the sample request still hands its three frames to
    [out.write] and still calls the uploader. *)
Lemma unconstructed_writer_is_written_to :
  ~ sink_failure_stops_job Sample.no_codec [] ∅.
Proof.
  intros H.
  destruct (H (Sample.picture 1 100 100) _ eq_refl eq_refl) as (_ & Hwrites & _).
  vm_compute in Hwrites. discriminate Hwrites.
Qed.

(** C5, as the code has it.  [process_video] does not look at whether the
    writer was constructed.  When it was not, the request goes on as usual:
    [out.write] is called for every frame read, both streams are released
    and the uploader is called once, whose result alone decides the
    response; nothing is stored by the writer and no output file is
    made. *)
Theorem writer_failure_goes_unnoticed
    (E : Env) (video_file : payload) (fs : gmap string file)
    (first : frame) (c : capture) :
  first_read E video_file = (Some first, c) ->
  sink_constructed E video_file first = false ->
  let o := process_video E (Some video_file) fs in
  map pixels (writes (events o)) = map pixels (loop_frames E video_file)
  /\ (exists w, end_out o = Some w /\ out_frames w = [])
  /\ disk o = <[input_path_of (uuid4 E) := Uploaded video_file]> fs
  /\ List.filter is_upload (events o) = [upload_call E]
  /\ resp o
     = match upload_file E (disk o) (output_path_of (uuid4 E)) (bucket_name E)
               (s3_key_of E) with
       | Ok _ =>
           Processed (output_path_of (uuid4 E))
             ("https://" +:+ bucket_name E +:+ ".s3.amazonaws.com/" +:+ s3_key_of E)
             (records_from E (cols first) (rows first) 0 (loop_frames E video_file))
       | Raise _ => UploadFailed
       end.
Proof.
  intros Hread Hsink. cbn zeta. rewrite (process_video_closed E _ _ _ _ Hread).
  cbn [run_closed events end_out disk resp].
  split; [|split; [|split; [|split]]].
  - rewrite !writes_app, writes_loop. cbn. rewrite app_nil_r. apply outputs_pixels.
  - eexists. split; [reflexivity|]. cbn [out_release out_frames].
    rewrite fold_write_frames. cbn. now rewrite Hsink.
  - unfold disk_at_upload. now rewrite Hsink.
  - rewrite !List.filter_app, filter_upload_loop. reflexivity.
  - reflexivity.
Qed.

Lemma writer_failure_goes_unnoticed_witness :
  let o := process_video Sample.no_codec (Some []) ∅ in
  sink_constructed Sample.no_codec [] (Sample.picture 1 100 100) = false
  /\ map pixels (writes (events o)) = [1; 2; 3]%nat
  /\ (exists w, end_out o = Some w /\ out_frames w = [])
  /\ disk o !! "outputs/processed_6fa1.mp4" = None
  /\ resp o = UploadFailed.
Proof.
  intros o.
  destruct (writer_failure_goes_unnoticed Sample.no_codec [] ∅
              (Sample.picture 1 100 100) _ eq_refl eq_refl)
    as (Hwrites & Hout & Hdisk & _ & Hresp).
  split; [reflexivity|]. split; [exact Hwrites|]. split; [exact Hout|].
  split.
  - exact (eq_trans (f_equal (fun d => d !! "outputs/processed_6fa1.mp4") Hdisk) eq_refl).
  - exact (eq_trans Hresp eq_refl).
Defined.

(** *** Release of the streams *)

(** A capture that was opened and whose first [read] fails is not
    released: the handler returns from line 70. *)
Lemma unreadable_video_leaves_capture_open
    (E : Env) (video_file : payload) (fs : gmap string file) (v : video) :
  decode E video_file = Some v ->
  stream v = [] ->
  let o := process_video E (Some video_file) fs in
  resp o = ReadFailed
  /\ (exists cap', end_cap o = Some cap' /\ cap_opened cap' = true)
  /\ List.filter is_release (events o) = [].
Proof.
  intros Hdec Hempty. cbn zeta.
  assert (Hread : first_read E video_file = (None, VideoCapture (Some v))).
  { unfold first_read, read. rewrite Hdec. cbn. now rewrite Hempty. }
  rewrite (process_video_unreadable E _ _ _ Hread). cbn.
  split; [reflexivity|]. split; [|reflexivity]. eexists. split; reflexivity.
Qed.

(** C6 at a container that opens and holds no frame that decodes: the
    request ends with the capture open and without a call of
    [cap.release()]. *)
Lemma truncated_video_leaves_capture_open :
  let o := process_video Sample.truncated (Some []) ∅ in
  resp o = ReadFailed
  /\ (exists cap', end_cap o = Some cap' /\ cap_opened cap' = true)
  /\ events o = [EvRead None].
Proof.
  cbn zeta. split; [reflexivity|]. split; [|reflexivity].
  eexists. split; reflexivity.
Qed.

(** *** Upload failure *)

(** C7.  When the uploader fails, the response is the upload error and
    carries no URL; the uploader was called once, as the last thing the
    request did; the disk is as it was at that call, with the saved input
    and, when the writer was constructed, the encoded output holding the
    frames written. *)
Theorem upload_failure_keeps_output
    (E : Env) (video_file : payload) (fs : gmap string file)
    (first : frame) (c : capture) (e : exn) :
  first_read E video_file = (Some first, c) ->
  upload_result E video_file first fs = Raise e ->
  let o := process_video E (Some video_file) fs in
  resp o = UploadFailed
  /\ s3_url_of (resp o) = None
  /\ status (resp o) = 500
  /\ List.filter is_upload (events o) = [upload_call E]
  /\ last (events o) = Some (upload_call E)
  /\ disk o = disk_at_upload E video_file first fs
  /\ disk o !! input_path_of (uuid4 E) = Some (Uploaded video_file)
  /\ (sink_constructed E video_file first = true ->
      disk o !! output_path_of (uuid4 E)
      = Some (Encoded (output_fps (VideoCapture (decode E video_file)))
                (cols first, rows first) (writes (events o)))).
Proof.
  intros Hread Hup. cbn zeta. rewrite (process_video_closed E _ _ _ _ Hread).
  cbn [run_closed events disk resp]. rewrite Hup. cbn [s3_url_of status].
  split; [reflexivity|]. split; [reflexivity|]. split; [reflexivity|].
  split; [rewrite !List.filter_app, filter_upload_loop; reflexivity|].
  split; [now rewrite !app_assoc, last_snoc|].
  split; [reflexivity|]. split; [apply disk_at_upload_input|].
  intros Hsink. unfold disk_at_upload. rewrite Hsink, lookup_insert_eq.
  rewrite !writes_app, writes_loop. cbn. now rewrite app_nil_r.
Qed.

Lemma upload_failure_keeps_output_witness :
  let o := process_video Sample.offline (Some []) ∅ in
  resp o = UploadFailed
  /\ s3_url_of (resp o) = None
  /\ List.filter is_upload (events o)
     = [EvUpload "outputs/processed_6fa1.mp4" "clips" "videos/processed_6fa1.mp4"]
  /\ disk o !! "uploads/temp_6fa1.mp4" = Some (Uploaded [])
  /\ disk o !! "outputs/processed_6fa1.mp4"
     = Some (Encoded 30 (100%positive, 100%positive) (writes (events o))).
Proof.
  intros o.
  destruct (upload_failure_keeps_output Sample.offline [] ∅ (Sample.picture 1 100 100)
              _ (CollaboratorError "endpoint unreachable") eq_refl eq_refl)
    as (Hresp & Hurl & _ & Hup & _ & _ & Hin & Hout).
  split; [exact Hresp|]. split; [exact Hurl|]. split; [exact Hup|].
  split; [exact Hin|]. exact (Hout eq_refl).
Defined.

(** *** The frame rate of the output *)

(** C9.  The writer, and the container it leaves on disk, get the rate
    that the input declares; when that rate is zero, or the container
    declares none, they get 25. *)
Theorem output_rate_is_declared_or_25
    (E : Env) (video_file : payload) (fs : gmap string file)
    (v : video) (w : writer) :
  decode E video_file = Some v ->
  end_out (process_video E (Some video_file) fs) = Some w ->
  out_fps w
  = match declared_fps v with
    | Some rate => if PrimFloat.eqb rate 0%float then 25%float else rate
    | None => 25%float
    end
  /\ forall fps size frames,
       disk (process_video E (Some video_file) fs) !! output_path_of (uuid4 E)
       = Some (Encoded fps size frames) ->
       fs !! output_path_of (uuid4 E) = None ->
       fps = out_fps w.
Proof.
  intros Hdec Hout.
  destruct (first_read E video_file) as [[first|] c] eqn:Hread.
  2:{ rewrite (process_video_unreadable E _ _ _ Hread) in Hout. discriminate Hout. }
  rewrite (process_video_closed E _ _ _ _ Hread) in *.
  cbn [run_closed end_out disk] in *. injection Hout as <-.
  cbn [out_release out_fps]. rewrite fold_write_fps. cbn [loop_start st_out VideoWriter out_fps].
  split.
  - unfold output_fps, get_fps. rewrite Hdec. cbn.
    destruct (declared_fps v) as [rate|]; reflexivity.
  - intros fps size frames Hfile Hfresh. unfold disk_at_upload in Hfile.
    destruct (sink_constructed E video_file first).
    + rewrite lookup_insert_eq in Hfile. now injection Hfile.
    + rewrite lookup_insert_ne in Hfile by apply paths_differ. congruence.
Qed.

(** A container without a rate: 25. *)
Lemma output_rate_is_declared_or_25_witness :
  exists w, end_out (process_video Sample.unrated (Some []) ∅) = Some w
            /\ out_fps w = 25%float.
Proof.
  eexists.
  match goal with |- ?G /\ _ => assert (Hout : G) by (vm_compute; reflexivity) end.
  split; [exact Hout|].
  exact (proj1 (output_rate_is_declared_or_25 Sample.unrated [] ∅ _ _ eq_refl Hout)).
Defined.

(** *** The saved input *)

(** C10.  Whatever the outcome of a request that carries a video, the
    payload saved under the uploads folder is on disk when the request
    ends, and so is every file that was there before: the handler removes
    nothing. *)
Theorem saved_input_stays
    (E : Env) (video_file : payload) (fs : gmap string file) :
  let o := process_video E (Some video_file) fs in
  disk o !! input_path_of (uuid4 E) = Some (Uploaded video_file)
  /\ String.prefix "uploads/" (input_path_of (uuid4 E)) = true
  /\ forall p, is_Some (fs !! p) -> is_Some (disk o !! p).
Proof.
  cbn zeta. destruct (first_read E video_file) as [[first|] c] eqn:Hread.
  - rewrite (process_video_closed E _ _ _ _ Hread). cbn [run_closed disk].
    split; [apply disk_at_upload_input|]. split; [reflexivity|].
    intros p. apply disk_at_upload_keeps.
  - rewrite (process_video_unreadable E _ _ _ Hread). cbn [disk].
    split; [apply lookup_insert_eq|]. split; [reflexivity|].
    intros p Hp. rewrite lookup_insert. case_decide; eauto.
Qed.

(** The three outcomes of the claim, each with its payload on disk, and a
    file of an earlier request that is still there. *)
Lemma saved_input_stays_witness :
  (resp (process_video Sample.studio (Some []) ∅)
   = Processed "outputs/processed_6fa1.mp4"
       "https://clips.s3.amazonaws.com/videos/processed_6fa1.mp4"
       (records_from Sample.studio 100 100 0 (stream Sample.clip))
   /\ disk (process_video Sample.studio (Some []) ∅) !! "uploads/temp_6fa1.mp4"
      = Some (Uploaded []))
  /\ (resp (process_video Sample.truncated (Some []) ∅) = ReadFailed
      /\ disk (process_video Sample.truncated (Some []) ∅) !! "uploads/temp_6fa1.mp4"
         = Some (Uploaded []))
  /\ (resp (process_video Sample.offline (Some []) ∅) = UploadFailed
      /\ disk (process_video Sample.offline (Some []) ∅) !! "uploads/temp_6fa1.mp4"
         = Some (Uploaded []))
  /\ is_Some (disk (process_video Sample.studio (Some [])
                     {[ "uploads/temp_02c7.mp4" := Uploaded [] ]})
              !! "uploads/temp_02c7.mp4").
Proof.
  split; [|split; [|split]]; [split; [vm_compute; reflexivity|]..|].
  - exact (proj1 (saved_input_stays Sample.studio [] ∅)).
  - exact (proj1 (saved_input_stays Sample.truncated [] ∅)).
  - exact (proj1 (saved_input_stays Sample.offline [] ∅)).
  - apply (proj2 (proj2 (saved_input_stays Sample.studio []
                           {[ "uploads/temp_02c7.mp4" := Uploaded [] ]}))).
    exists (Uploaded []). vm_compute. reflexivity.
Defined.

(* ===================================================================== *)
(** ** A detection that is annotated *)

Section Annotated.
Variable E : Env.

Lemma as_cint_ok v n : as_cint v = Ok n -> v = PyInt n /\ fits_cint n = true.
Proof.
  unfold as_cint, fits_cint. destruct v as [|m| | | |]; try discriminate.
  destruct (_ && _) eqn:Hfit; [|discriminate]. now intros [= <-].
Qed.

Lemma as_cint_int n : fits_cint n = true -> as_cint (PyInt n) = Ok n.
Proof. unfold as_cint, fits_cint. now intros ->. Qed.

Lemma as_point_ok a b q :
  as_point (a, b) = Ok q ->
  a = PyInt (fst q) /\ b = PyInt (snd q)
  /\ fits_cint (fst q) = true /\ fits_cint (snd q) = true.
Proof.
  unfold as_point. cbn [fst snd].
  destruct (as_cint a) as [p|] eqn:Ha; [|discriminate].
  destruct (as_cint b) as [p'|] eqn:Hb; [|discriminate].
  cbn. intros [= <-]. cbn.
  destruct (as_cint_ok _ _ Ha), (as_cint_ok _ _ Hb). auto.
Qed.

Lemma as_point_int x y :
  fits_cint x = true -> fits_cint y = true -> as_point (PyInt x, PyInt y) = Ok (x, y).
Proof.
  intros Hx Hy. unfold as_point. cbn [fst snd].
  now rewrite (as_cint_int _ Hx), (as_cint_int _ Hy).
Qed.

Lemma add_int_ok m w n : add (PyInt m) w = Ok (PyInt n) -> w = PyInt (n - m).
Proof.
  destruct w as [|k|g| | |]; cbn; try discriminate.
  - intros [= <-]. f_equal. lia.
  - destruct (float_of_Z m); discriminate.
Qed.

(** When the steps of lines 128-155 all go through, this is what they
    leave. *)
Lemma annotate_face_success k face x y w h emotion scores score conf c a :
  fits_cint x = true -> fits_cint y = true ->
  fits_cint (x + w) = true -> fits_cint (y + h) = true ->
  fits_cint (y - 10) = true ->
  getitem face (PyStr "dominant_emotion") = Ok emotion ->
  getitem face (PyStr "emotion") = Ok scores ->
  getitem scores emotion = Ok score ->
  emotion_color emotion = Ok c ->
  format_2f score = Ok conf ->
  annotate_face E k face (PyInt x) (PyInt y) (PyInt w) (PyInt h) a
  = (Ok tt,
     {| a_frame := draws (face_overlay x y w h emotion conf c) (a_frame a);
        a_data := a_data a ++ [face_record k x y w h emotion conf] |}).
Proof.
  intros Hx Hy Hxw Hyh Hy10 He Hs Hsc Hc Hf.
  unfold annotate_face.
  rewrite mbind_lift, He, mbind_lift, Hs, mbind_lift, Hsc, mbind_lift, Hc.
  cbv beta iota.
  assert (Hfmt : fmt_label emotion score
                 = Ok {| label_emotion := emotion; label_score := conf |})
    by (unfold fmt_label; now rewrite Hf).
  pose proof (as_point_int _ _ Hx Hy) as Pxy.
  pose proof (as_point_int _ _ Hxw Hyh) as Pwh.
  pose proof (as_point_int _ _ Hx Hy10) as Porg.
  pose proof (to_float_format (parse_float E) _ _ Hf) as Hconf.
  repeat (first [ rewrite mbind_lift | rewrite mbind_rectangle
                | rewrite mbind_putText | rewrite mbind_append ];
          cbn [add sub_int];
          rewrite ?Hfmt, ?Pxy, ?Pwh, ?Porg, ?Hconf;
          cbn [rbind]; cbv beta iota).
  unfold mret. cbn [a_frame a_data].
  rewrite !draw_draws, !draws_app. reflexivity.
Qed.

Ltac lift_in v Hv :=
  rewrite mbind_lift;
  match goal with
  | |- (match ?r with Ok _ => _ | Raise _ => _ end = _) -> _ =>
      destruct r as [v|?] eqn:Hv; [|discriminate]
  end.

(** And only then do they all go through. *)
Lemma annotate_face_needs k face x y w h a u a' :
  annotate_face E k face x y w h a = (Ok u, a') ->
  exists xz yz wz hz emotion scores score conf c,
    x = PyInt xz /\ y = PyInt yz /\ w = PyInt wz /\ h = PyInt hz
    /\ fits_cint xz = true /\ fits_cint yz = true
    /\ fits_cint (xz + wz) = true /\ fits_cint (yz + hz) = true
    /\ fits_cint (yz - 10) = true
    /\ getitem face (PyStr "dominant_emotion") = Ok emotion
    /\ getitem face (PyStr "emotion") = Ok scores
    /\ getitem scores emotion = Ok score
    /\ emotion_color emotion = Ok c
    /\ format_2f score = Ok conf.
Proof.
  unfold annotate_face.
  lift_in emotion He. lift_in scores Hs. lift_in score Hsc. lift_in c Hc.
  lift_in xw Hxw. lift_in yh Hyh.
  rewrite mbind_rectangle.
  destruct (as_point (x, y)) as [p1|] eqn:Hp1; [|discriminate].
  destruct (as_point (xw, yh)) as [p2|] eqn:Hp2; [|discriminate].
  cbn [rbind]. rewrite !mbind_lift. cbv beta iota.
  rewrite mbind_rectangle, Hp1, Hp2. cbn [rbind].
  lift_in text Ht. lift_in y10 Hy10.
  rewrite mbind_putText.
  destruct (as_point (x, y10)) as [p3|] eqn:Hp3; [|discriminate].
  intros _.
  destruct (as_point_ok _ _ _ Hp1) as (-> & -> & Fx & Fy).
  destruct (as_point_ok _ _ _ Hp2) as (-> & -> & Fxw & Fyh).
  apply add_int_ok in Hxw, Hyh. subst w h.
  cbn in Hy10. injection Hy10 as <-.
  destruct (as_point_ok _ _ _ Hp3) as (_ & Hq & _ & Fy10).
  injection Hq as Hq. rewrite <- Hq in Fy10.
  exists (fst p1), (snd p1), (fst p2 - fst p1), (snd p2 - snd p1),
    emotion, scores, score, (label_score text), c.
  replace (fst p1 + (fst p2 - fst p1)) with (fst p2) by lia.
  replace (snd p1 + (snd p2 - snd p1)) with (snd p2) by lia.
  repeat (split; [reflexivity || assumption|]).
  now apply fmt_label_format with emotion.
Qed.

End Annotated.

(* ===================================================================== *)
(** ** The shape of the records *)

Section Shapes.
Variable E : Env.

Lemma key_shape container key v c :
  getitem container key = Ok v -> emotion_color key = Ok c ->
  (exists s, key = PyStr s) \/ (exists n, key = PyInt n).
Proof.
  destruct key as [|n|g|s|l|kvs]; eauto;
    destruct container; cbn; discriminate.
Qed.

Lemma record_shape_frame k r : record_shape k r -> Rec.frame r = k.
Proof. intros [->|x y w h emotion conf -> _ _ _ _ _ _ _ _]; reflexivity. Qed.

Lemma degenerate_ints w h : degenerate (PyInt w) (PyInt h) = false -> w <> 0 /\ h <> 0.
Proof.
  unfold degenerate. cbn. intros H. apply orb_false_elim in H as [Hw Hh].
  split; now apply Z.eqb_neq.
Qed.

Lemma process_face_shape k face a :
  match process_face E k face a with
  | (Ok _, a') =>
      exists r ops,
        record_shape k r
        /\ a' = {| a_frame := draws ops (a_frame a); a_data := a_data a ++ [r] |}
  | (Raise _, a') =>
      exists ops, a' = {| a_frame := draws ops (a_frame a); a_data := a_data a |}
  end.
Proof.
  assert (Hnull : exists r ops,
             record_shape k r
             /\ {| a_frame := a_frame a; a_data := a_data a ++ [null_record k] |}
                = {| a_frame := draws ops (a_frame a); a_data := a_data a ++ [r] |}).
  { exists (null_record k), []. split; [now constructor|now rewrite draws_nil]. }
  pose proof (process_face_cases E k face a) as Hcases.
  destruct (process_face E k face a) as [[[]|e] a'] eqn:Hrun; [|exact Hcases].
  clear Hcases. revert Hrun. unfold process_face. rewrite mbind_lift.
  destruct (read_region face) as [[[[x y] w] h]|e]; [|discriminate].
  unfold mbind at 1. unfold get_frame at 1. cbv beta iota.
  destruct (degenerate w h) eqn:Hd; [intros [= <-]; exact Hnull|].
  rewrite mbind_lift.
  destruct (full_frame w h _ _) as [[|]|e]; [intros [= <-]; exact Hnull| |discriminate].
  intros Hrun.
  destruct (annotate_face_needs E _ _ _ _ _ _ _ _ _ Hrun)
    as (xz & yz & wz & hz & emotion & scores & score & conf & c
        & -> & -> & -> & -> & Fx & Fy & Fxw & Fyh & Fy10 & He & Hs & Hsc & Hc & Hf).
  rewrite (annotate_face_success E k face xz yz wz hz emotion scores score conf c a)
    in Hrun by assumption.
  injection Hrun as <-.
  destruct (degenerate_ints _ _ Hd) as [Hw Hh].
  eexists _, _. split; [|reflexivity].
  apply (shape_face k _ xz yz wz hz emotion conf); auto.
  exact (key_shape _ _ _ _ Hsc Hc).
Qed.

Lemma for_faces_shape k faces : forall a,
  exists new ops,
    snd (for_faces E k faces a)
    = {| a_frame := draws ops (a_frame a); a_data := a_data a ++ new |}
    /\ Forall (record_shape k) new
    /\ (length new <= length faces)%nat.
Proof.
  induction faces as [|face rest IH]; intros a; cbn [for_faces].
  - exists [], []. cbn. rewrite draws_nil, app_nil_r. destruct a. auto.
  - unfold mbind. pose proof (process_face_shape k face a) as H.
    destruct (process_face E k face a) as [[u|e] a1].
    + destruct H as (r & ops & Hr & ->).
      destruct (IH {| a_frame := draws ops (a_frame a); a_data := a_data a ++ [r] |})
        as (new & ops' & -> & Hnew & Hlen).
      exists (r :: new), (ops ++ ops'). cbn [a_frame a_data].
      rewrite draws_app, <- app_assoc. cbn. split; [reflexivity|].
      split; [now constructor|lia].
    + destruct H as (ops & ->). exists [], ops. cbn.
      rewrite app_nil_r. split; [reflexivity|]. split; [constructor|lia].
Qed.

Lemma frame_records_shape k width height f :
  Forall (record_shape k) (frame_records E k width height f)
  /\ (length (frame_records E k width height f)
      <= length (detections E width height f))%nat.
Proof.
  unfold frame_records, frame_annot, detections. rewrite try_body_unfold. cbn [a_frame].
  destruct (analyze E (fit width height f)) as [res|e]; [|cbn; split; [constructor|lia]].
  destruct (iter res) as [faces|e]; [|cbn; split; [constructor|lia]].
  destruct (for_faces_shape k faces {| a_frame := fit width height f; a_data := [] |})
    as (new & ops & -> & Hnew & Hlen).
  cbn. auto.
Qed.

Lemma records_from_shape width height frames : forall k,
  Forall (fun r => record_shape (Rec.frame r) r) (records_from E width height k frames).
Proof.
  induction frames as [|f rest IH]; intros k; [constructor|].
  cbn [records_from]. apply Forall_app. split; [|apply IH].
  eapply Forall_impl; [apply (frame_records_shape (k + 1) width height f)|].
  cbn. intros r Hr. now rewrite (record_shape_frame _ _ Hr).
Qed.

End Shapes.

(* ===================================================================== *)
(** ** The two filters *)

Lemma zero_size_eq_zero v : zero_size v -> eq_zero v = true.
Proof. intros [->| ->| ->]; reflexivity. Qed.

(** A region that [filtered_out] names meets one of the two tests of the
    code, and the detection leaves the null record. *)
Lemma filtered_out_null (E : Env) k face x y w h a :
  read_region face = Ok (x, y, w, h) ->
  filtered_out (cols (a_frame a)) (rows (a_frame a)) w h ->
  process_face E k face a = (Ok tt, with_null k a).
Proof.
  intros Hr [Hz|Hz|wz hz -> -> Hfw Hfh Hw Hh].
  - apply (process_face_degenerate E k face x y w h a Hr).
    unfold degenerate. now rewrite (zero_size_eq_zero _ Hz).
  - apply (process_face_degenerate E k face x y w h a Hr).
    unfold degenerate. now rewrite (zero_size_eq_zero _ Hz), orb_true_r.
  - apply (process_face_full E k face x y (PyInt wz) (PyInt hz) a Hr).
    rewrite (full_frame_pixels _ _ _ _ Hfw Hfh). f_equal.
    apply andb_true_iff. split; apply Z.leb_le; lia.
Qed.

(** C2, as it is stated, does not hold.  The classifier returns an entry
    without its region and then a detection of width 0: the first entry
    raises KeyError, the [try] is left, and the detection of width 0 is
    never looked at.  The frame has no record at all, and neither has
    the response. *)
Lemma detection_after_failure_gets_no_record :
  ~ every_filtered_detection_recorded
      (Sample.one_frame [Sample.malformed; Sample.no_width])
  /\ frame_records (Sample.one_frame [Sample.malformed; Sample.no_width])
       1 100 100 (Sample.picture 1 100 100) = []
  /\ resp (process_video (Sample.one_frame [Sample.malformed; Sample.no_width])
             (Some []) ∅)
     = Processed "outputs/processed_6fa1.mp4"
         "https://clips.s3.amazonaws.com/videos/processed_6fa1.mp4" [].
Proof.
  split; [|split; vm_compute; reflexivity].
  intros H.
  destruct (H 1 100%positive 100%positive (Sample.picture 1 100 100)
              (PyList [Sample.malformed; Sample.no_width])
              [Sample.malformed; Sample.no_width] 1%nat Sample.no_width
              (PyInt 10) (PyInt 10) (PyInt 0) (PyInt 50))
    as (r & Hin & _); try reflexivity.
  - apply no_width. now apply zero_int.
  - vm_compute in Hin. inversion Hin.
Qed.

(** C2, amended.  A detection that the loop over the detections of a
    frame reaches (the detections before it raised nothing), whose region
    can be read, and whose width is 0, whose height is 0, or whose width
    and height in whole pixels are both at least 0.95 times those of the
    frame: nothing is drawn for it and nothing is raised, the record that
    is appended has the number of the frame, [face_detected = false] and
    every other field null, the loop goes on with the next detection, and
    the record is in the log of the frame at the position of the
    detection, whatever the detections after it do. *)
Theorem reached_filtered_detection_null_record
    (E : Env) (k : Z) (width height : positive) (f : frame) (res : pyval)
    (before rest : list pyval) (face x y w h : pyval) (a1 : annot) :
  analyze E (fit width height f) = Ok res ->
  iter res = Ok (before ++ face :: rest) ->
  for_faces E k before {| a_frame := fit width height f; a_data := [] |} = (Ok tt, a1) ->
  read_region face = Ok (x, y, w, h) ->
  filtered_out width height w h ->
  exists r,
    process_face E k face a1
    = (Ok tt, {| a_frame := a_frame a1; a_data := a_data a1 ++ [r] |})
    /\ for_faces E k (face :: rest) a1
       = for_faces E k rest {| a_frame := a_frame a1; a_data := a_data a1 ++ [r] |}
    /\ frame_records E k width height f !! length before = Some r
    /\ Rec.frame r = k /\ Rec.face_detected r = false
    /\ Rec.emotion r = PyNone /\ Rec.confidence r = PyNone
    /\ Rec.x r = PyNone /\ Rec.y r = PyNone
    /\ Rec.width r = PyNone /\ Rec.height r = PyNone.
Proof.
  intros Han Hit Hbefore Hr Hf.
  pose proof (for_faces_count E k before _ _ Hbefore) as Hlen. cbn [a_data length] in Hlen.
  assert (Hsize : cols (a_frame a1) = width /\ rows (a_frame a1) = height).
  { destruct (for_faces_shape E k before {| a_frame := fit width height f; a_data := [] |})
      as (new & ops & Hsnd & _). rewrite Hbefore in Hsnd. cbn [snd] in Hsnd.
    rewrite Hsnd. cbn. apply fit_size. }
  destruct Hsize as [Hc Hrows].
  assert (Hp : process_face E k face a1 = (Ok tt, with_null k a1)).
  { apply (filtered_out_null E k face x y w h a1 Hr). now rewrite Hc, Hrows. }
  exists (null_record k). split; [exact Hp|].
  split. { cbn [for_faces]. unfold mbind. now rewrite Hp. }
  split; [|repeat split; reflexivity].
  unfold frame_records, frame_annot. rewrite try_body_unfold. cbn [a_frame].
  rewrite Han, Hit, for_faces_app, Hbefore. cbn [for_faces].
  unfold mbind at 1. rewrite Hp.
  destruct (for_faces_shape E k rest (with_null k a1)) as (new & ops & -> & _).
  cbn [a_data with_null]. rewrite <- app_assoc.
  apply list_lookup_middle. cbn in Hlen. now rewrite Hlen.
Qed.

(** A frame of 100 by 100 with a box of 95 by 95 and then a region without
    width: each is reached, each leaves its record without a face, the
    first by the test on the size of the frame and the second by the test
    on 0. *)
Lemma reached_filtered_detection_null_record_witness :
  (exists r,
     frame_records (Sample.one_frame [Sample.whole_frame; Sample.no_width])
       1 100 100 (Sample.picture 1 100 100) !! 0%nat = Some r
     /\ Rec.face_detected r = false)
  /\ (exists r,
        frame_records (Sample.one_frame [Sample.whole_frame; Sample.no_width])
          1 100 100 (Sample.picture 1 100 100) !! 1%nat = Some r
        /\ Rec.face_detected r = false).
Proof.
  split.
  - destruct (reached_filtered_detection_null_record
                (Sample.one_frame [Sample.whole_frame; Sample.no_width]) 1 100 100
                (Sample.picture 1 100 100) (PyList [Sample.whole_frame; Sample.no_width])
                [] [Sample.no_width] Sample.whole_frame
                (PyInt 0) (PyInt 0) (PyInt 95) (PyInt 95)
                {| a_frame := Sample.picture 1 100 100; a_data := [] |})
      as (r & _ & _ & Hrec & _ & Hno & _);
      [reflexivity|reflexivity|reflexivity|reflexivity| |exists r; split; assumption].
    apply (full_box 100 100 _ _ 95 95); [reflexivity|reflexivity|lia|lia|lia|lia].
  - destruct (reached_filtered_detection_null_record
                (Sample.one_frame [Sample.whole_frame; Sample.no_width]) 1 100 100
                (Sample.picture 1 100 100) (PyList [Sample.whole_frame; Sample.no_width])
                [Sample.whole_frame] [] Sample.no_width
                (PyInt 10) (PyInt 10) (PyInt 0) (PyInt 50)
                {| a_frame := Sample.picture 1 100 100; a_data := [null_record 1] |})
      as (r & _ & _ & Hrec & _ & Hno & _);
      [reflexivity|reflexivity|vm_compute; reflexivity|reflexivity|
      |exists r; split; assumption].
    apply no_width. apply zero_int. reflexivity.
Defined.

(* ===================================================================== *)
(** ** The scenarios of the specification *)

(** One frame of 100 by 100 with a "happy" face at (10, 10), 50 by 50:
    one record, boxes and text in black and then in green, one frame in
    the container. *)
Example happy_scenario :
  let o := process_video (Sample.one_frame [Sample.happy]) (Some []) ∅ in
  resp o
  = Processed "outputs/processed_6fa1.mp4"
      "https://clips.s3.amazonaws.com/videos/processed_6fa1.mp4"
      [{| Rec.frame := 1; Rec.face_detected := true;
          Rec.x := PyInt 10; Rec.y := PyInt 10;
          Rec.width := PyInt 50; Rec.height := PyInt 50;
          Rec.emotion := PyStr "happy"; Rec.confidence := PyFloat 0.75 |}]
  /\ map overlay (writes (events o))
     = [[Rectangle (10, 10) (60, 60) (0, 0, 0) 4;
         Rectangle (10, 10) (60, 60) (0, 255, 0) 2;
         PutText {| label_emotion := PyStr "happy"; label_score := 0.75 |}
           (10, 0) 0 c09 (0, 0, 0) 4;
         PutText {| label_emotion := PyStr "happy"; label_score := 0.75 |}
           (10, 0) 0 c09 (0, 255, 0) 2]].
Proof. split; vm_compute; reflexivity. Qed.

(** A box of 95 by 95 in a frame of 100 by 100 is taken for the whole
    frame; a region without width is empty. *)
Example filtered_scenarios :
  resp (process_video (Sample.one_frame [Sample.whole_frame; Sample.no_width]) (Some []) ∅)
  = Processed "outputs/processed_6fa1.mp4"
      "https://clips.s3.amazonaws.com/videos/processed_6fa1.mp4"
      [null_record 1; null_record 1].
Proof. vm_compute. reflexivity. Qed.

(** A box of 94 by 95 is kept: the filter asks for both sides. *)
Example narrow_box_is_kept :
  full_frame (PyInt 94) (PyInt 95) 100 100 = Ok false
  /\ full_frame (PyInt 95) (PyInt 94) 100 100 = Ok false
  /\ full_frame (PyInt 95) (PyInt 95) 100 100 = Ok true.
Proof. repeat split; vm_compute; reflexivity. Qed.

(** Sizes that are floats go through the same tests: 0.0 and -0.0 are 0,
    and 95.5 by 100 in a frame of 100 by 100 is the whole frame, 94.5 by
    100 and 95.5 by 94.5 are not. *)
Example fractional_sizes :
  degenerate (PyFloat 0) (PyInt 50) = true
  /\ degenerate (PyInt 50) (PyFloat (-0)) = true
  /\ degenerate (PyFloat 0.5) (PyFloat 50) = false
  /\ full_frame (PyFloat 95.5) (PyFloat 100) 100 100 = Ok true
  /\ full_frame (PyFloat 94.5) (PyFloat 100) 100 100 = Ok false
  /\ full_frame (PyFloat 95.5) (PyFloat 94.5) 100 100 = Ok false
  /\ full_frame (PyInt 95) (PyFloat 100) 100 100 = Ok true.
Proof. repeat split; vm_compute; reflexivity. Qed.

(** A score that cannot be formatted: both boxes are on the frame when
    the exception comes, and no record is added. *)
Example boxes_drawn_before_text_fails :
  frame_annot (Sample.one_frame [Sample.no_score]) 1 100 100 (Sample.picture 1 100 100)
  = (Raise TypeError,
     {| a_frame :=
          draws [Rectangle (10, 10) (60, 60) (0, 0, 0) 4;
                 Rectangle (10, 10) (60, 60) (0, 255, 0) 2]
            (Sample.picture 1 100 100);
        a_data := [] |}).
Proof. vm_compute. reflexivity. Qed.

(** No payload: nothing is saved and nothing is read. *)
Example no_payload_scenario (E : Env) (fs : gmap string file) :
  resp (process_video E None fs) = NoVideo
  /\ status (resp (process_video E None fs)) = 400
  /\ disk (process_video E None fs) = fs
  /\ events (process_video E None fs) = [].
Proof. repeat split. Qed.

(** The colour table, and white for what is not in it. *)
Example colours :
  emotion_color (PyStr "happy") = Ok (0, 255, 0)
  /\ emotion_color (PyStr "neutral") = Ok (200, 200, 200)
  /\ emotion_color (PyStr "bored") = Ok white
  /\ VideoWriter_fourcc "m" "p" "4" "v" = 0x7634706d.
Proof. repeat split; vm_compute; reflexivity. Qed.

(* ===================================================================== *)
(** ** Detections, one by one *)

Lemma process_face_valid E k face x y w h a :
  read_region face = Ok (x, y, w, h) ->
  degenerate w h = false ->
  full_frame w h (cols (a_frame a)) (rows (a_frame a)) = Ok false ->
  process_face E k face a = annotate_face E k face x y w h a.
Proof.
  intros Hr Hd Hf. unfold process_face. rewrite mbind_lift, Hr.
  unfold mbind at 1. unfold get_frame at 1. cbv beta iota.
  now rewrite Hd, mbind_lift, Hf.
Qed.

Lemma ints_not_degenerate w h :
  w <> 0 -> h <> 0 -> degenerate (PyInt w) (PyInt h) = false.
Proof.
  intros Hw Hh. unfold degenerate. cbn.
  now rewrite (proj2 (Z.eqb_neq w 0) Hw), (proj2 (Z.eqb_neq h 0) Hh).
Qed.

(** X1.  A detection with a region of whole pixels that passes both
    filters, whose corners and text anchor fit a C int, whose dominant
    label is a string with a numeric score, is processed without an
    exception: the frame gets, in this order, a black box of thickness 4,
    a box in the colour of the label of thickness 2 on the same corners
    (x, y) and (x + w, y + h), and the text in black of thickness 4 and in
    the colour of thickness 2, both at (x, y - 10); and the log gets one
    record with the region, the label and the score as a float. *)
Theorem valid_detection_is_drawn
    (E : Env) (k x y w h : Z) (face scores score : pyval) (label : string)
    (conf : float) (a : annot) :
  read_region face = Ok (PyInt x, PyInt y, PyInt w, PyInt h) ->
  w <> 0 -> h <> 0 ->
  full_frame (PyInt w) (PyInt h) (cols (a_frame a)) (rows (a_frame a)) = Ok false ->
  fits_cint x = true -> fits_cint y = true ->
  fits_cint (x + w) = true -> fits_cint (y + h) = true ->
  fits_cint (y - 10) = true ->
  getitem face (PyStr "dominant_emotion") = Ok (PyStr label) ->
  getitem face (PyStr "emotion") = Ok scores ->
  getitem scores (PyStr label) = Ok score ->
  format_2f score = Ok conf ->
  process_face E k face a
  = (Ok tt,
     {| a_frame :=
          draws (face_overlay x y w h (PyStr label) conf
                   (default white (EMOTION_COLORS !! label)))
            (a_frame a);
        a_data := a_data a ++ [face_record k x y w h (PyStr label) conf] |}).
Proof.
  intros Hr Hw Hh Hfull Fx Fy Fxw Fyh Fy10 He Hs Hsc Hf.
  rewrite (process_face_valid E k face _ _ _ _ a Hr (ints_not_degenerate _ _ Hw Hh) Hfull).
  now apply annotate_face_success with scores score.
Qed.

Lemma valid_detection_is_drawn_witness :
  process_face Sample.studio 1 Sample.happy (Sample.clean (Sample.picture 1 100 100))
  = (Ok tt,
     {| a_frame :=
          draws [ Rectangle (10, 10) (60, 60) (0, 0, 0) 4;
                  Rectangle (10, 10) (60, 60) (0, 255, 0) 2;
                  PutText {| label_emotion := PyStr "happy"; label_score := 0.75 |}
                    (10, 0) 0 c09 (0, 0, 0) 4;
                  PutText {| label_emotion := PyStr "happy"; label_score := 0.75 |}
                    (10, 0) 0 c09 (0, 255, 0) 2 ]
            (Sample.picture 1 100 100);
        a_data := [face_record 1 10 10 50 50 (PyStr "happy") 0.75] |}).
Proof.
  apply (valid_detection_is_drawn Sample.studio 1 10 10 50 50 Sample.happy
           (PyDict [("happy", PyFloat 0.75)]) (PyFloat 0.75) "happy" 0.75
           (Sample.clean (Sample.picture 1 100 100)));
    try reflexivity; discriminate.
Defined.

(** X2.  Every record that a request returns has one of two shapes: the
    all-null record of its frame, or a record with [face_detected] true
    whose region fields are ints with a width and a height that are not 0
    and corners that fit a C int, whose confidence is a float and whose
    label is a str or an int. *)
Theorem results_have_two_shapes
    (E : Env) (request_files : option payload) (fs : gmap string file)
    (path url : string) (results : list FrameRecord) :
  resp (process_video E request_files fs) = Processed path url results ->
  Forall (fun r => record_shape (Rec.frame r) r) results.
Proof.
  destruct request_files as [video_file|]; [|discriminate].
  destruct (first_read E video_file) as [[first|] c] eqn:Hread.
  - rewrite (process_video_closed E _ _ _ _ Hread). cbn [resp run_closed].
    destruct (upload_result E video_file first fs); [|discriminate].
    intros [= _ _ <-]. apply records_from_shape.
  - rewrite (process_video_unreadable E _ _ _ Hread). discriminate.
Qed.

Lemma results_have_two_shapes_witness :
  exists path url results,
    resp (process_video Sample.studio (Some []) ∅) = Processed path url results
    /\ length results = 3%nat
    /\ Forall (fun r => record_shape (Rec.frame r) r) results.
Proof.
  eexists _, _, _.
  match goal with |- ?G /\ _ => assert (Hresp : G) by (vm_compute; reflexivity) end.
  split; [exact Hresp|]. split; [reflexivity|].
  exact (results_have_two_shapes Sample.studio (Some []) ∅ _ _ _ Hresp).
Defined.

(** X3.  A frame never adds more records than the classifier returned
    detections for it: none when the classifier raised or returned
    something that cannot be iterated, and none when it returned an empty
    list. *)
Theorem at_most_one_record_per_detection
    (E : Env) (k : Z) (width height : positive) (f : frame) :
  (length (frame_records E k width height f)
   <= length (detections E width height f))%nat.
Proof. apply frame_records_shape. Qed.

(** X4.  A detection that passes both filters and whose dominant label,
    score table or score for that label is missing fails with the
    exception of the lookup before anything is drawn: the frame and the
    log are as they were. *)
Theorem missing_score_fails_before_drawing
    (E : Env) (k : Z) (face x y w h : pyval) (a : annot) (e : exn) :
  read_region face = Ok (x, y, w, h) ->
  degenerate w h = false ->
  full_frame w h (cols (a_frame a)) (rows (a_frame a)) = Ok false ->
  getitem face (PyStr "dominant_emotion") = Raise e
  \/ (exists emotion,
        getitem face (PyStr "dominant_emotion") = Ok emotion
        /\ (getitem face (PyStr "emotion") = Raise e
            \/ exists scores,
                 getitem face (PyStr "emotion") = Ok scores
                 /\ getitem scores emotion = Raise e)) ->
  process_face E k face a = (Raise e, a).
Proof.
  intros Hr Hd Hf Hmiss. rewrite (process_face_valid E k face x y w h a Hr Hd Hf).
  unfold annotate_face. rewrite mbind_lift.
  destruct Hmiss as [->|(emotion & -> & [He|(scores & Hs & Hsc)])]; [reflexivity| |].
  - now rewrite mbind_lift, He.
  - now rewrite mbind_lift, Hs, mbind_lift, Hsc.
Qed.

(** The dominant label "happy" with a score for "sad" only. *)
Lemma missing_score_fails_before_drawing_witness :
  process_face Sample.studio 1 Sample.unscored (Sample.clean (Sample.picture 1 100 100))
  = (Raise KeyError, Sample.clean (Sample.picture 1 100 100)).
Proof.
  apply (missing_score_fails_before_drawing Sample.studio 1 Sample.unscored
           (PyInt 10) (PyInt 10) (PyInt 50) (PyInt 50)); try reflexivity.
  right. exists (PyStr "happy"). split; [reflexivity|].
  right. exists (PyDict [("sad", PyFloat 0.5)]). split; reflexivity.
Defined.

(** X5.  A detection that passes both filters, with a region that can be
    drawn, whose score cannot be formatted with [.2f] (a [None], a str),
    fails when the text is built: by then both boxes are on the frame, and
    they stay; no text is drawn and no record is added. *)
Theorem unprintable_score_leaves_boxes
    (E : Env) (k x y w h : Z) (face emotion scores score : pyval) (c : color)
    (a : annot) (e : exn) :
  read_region face = Ok (PyInt x, PyInt y, PyInt w, PyInt h) ->
  w <> 0 -> h <> 0 ->
  full_frame (PyInt w) (PyInt h) (cols (a_frame a)) (rows (a_frame a)) = Ok false ->
  fits_cint x = true -> fits_cint y = true ->
  fits_cint (x + w) = true -> fits_cint (y + h) = true ->
  getitem face (PyStr "dominant_emotion") = Ok emotion ->
  getitem face (PyStr "emotion") = Ok scores ->
  getitem scores emotion = Ok score ->
  emotion_color emotion = Ok c ->
  format_2f score = Raise e ->
  process_face E k face a
  = (Raise e,
     {| a_frame :=
          draws [ Rectangle (x, y) (x + w, y + h) black 4;
                  Rectangle (x, y) (x + w, y + h) c 2 ] (a_frame a);
        a_data := a_data a |}).
Proof.
  intros Hr Hw Hh Hfull Fx Fy Fxw Fyh He Hs Hsc Hc Hf.
  rewrite (process_face_valid E k face _ _ _ _ a Hr (ints_not_degenerate _ _ Hw Hh) Hfull).
  unfold annotate_face.
  rewrite mbind_lift, He, mbind_lift, Hs, mbind_lift, Hsc, mbind_lift, Hc.
  cbv beta iota.
  assert (Hfmt : fmt_label emotion score = Raise e)
    by (unfold fmt_label; now rewrite Hf).
  pose proof (as_point_int _ _ Fx Fy) as Pxy.
  pose proof (as_point_int _ _ Fxw Fyh) as Pwh.
  do 6 (first [ rewrite mbind_lift | rewrite mbind_rectangle ];
        cbn [add]; rewrite ?Pxy, ?Pwh; cbn [rbind]; cbv beta iota).
  rewrite mbind_lift, Hfmt. cbn [a_frame a_data].
  now rewrite !draw_draws, !draws_app.
Qed.

Lemma unprintable_score_leaves_boxes_witness :
  process_face Sample.studio 1 Sample.no_score (Sample.clean (Sample.picture 1 100 100))
  = (Raise TypeError,
     {| a_frame :=
          draws [ Rectangle (10, 10) (60, 60) (0, 0, 0) 4;
                  Rectangle (10, 10) (60, 60) (0, 255, 0) 2 ]
            (Sample.picture 1 100 100);
        a_data := [] |}).
Proof.
  apply (unprintable_score_leaves_boxes Sample.studio 1 10 10 50 50 Sample.no_score
           (PyStr "happy") (PyDict [("happy", PyNone)]) PyNone (0, 255, 0)
           (Sample.clean (Sample.picture 1 100 100)) TypeError);
    try reflexivity; discriminate.
Defined.

(** *** The test of line 114 *)

Lemma narrow_box_short_circuits fw fh wz h :
  (fw <= 65536)%positive ->
  100 * wz < 95 * Z.pos fw ->
  full_frame (PyInt wz) h fw fh = Ok false.
Proof.
  intros Hfw Hlt. unfold full_frame.
  pose proof (threshold_exact_small fw Hfw) as Tw.
  destruct (int_mul_float (Z.pos fw) c095) as [tw|e] eqn:Ew;
    [|unfold threshold_exact in Tw; rewrite Ew in Tw; discriminate].
  cbn [rbind ge_float]. rewrite (threshold_exact_ge fw tw wz Tw Ew).
  now rewrite (proj2 (Z.leb_gt _ _) Hlt).
Qed.

Lemma wide_box_looks_at_height fw fh wz h :
  (fw <= 65536)%positive -> (fh <= 65536)%positive ->
  95 * Z.pos fw <= 100 * wz ->
  exists th,
    int_mul_float (Z.pos fh) c095 = Ok th
    /\ full_frame (PyInt wz) h fw fh = ge_float h th.
Proof.
  intros Hfw Hfh Hge. unfold full_frame.
  pose proof (threshold_exact_small fw Hfw) as Tw.
  pose proof (threshold_exact_small fh Hfh) as Th.
  destruct (int_mul_float (Z.pos fw) c095) as [tw|e] eqn:Ew;
    [|unfold threshold_exact in Tw; rewrite Ew in Tw; discriminate].
  destruct (int_mul_float (Z.pos fh) c095) as [th|e] eqn:Eh;
    [|unfold threshold_exact in Th; rewrite Eh in Th; discriminate].
  exists th. split; [reflexivity|].
  cbn [rbind ge_float]. rewrite (threshold_exact_ge fw tw wz Tw Ew).
  now rewrite (proj2 (Z.leb_le _ _) Hge).
Qed.

(** X6.  On a region of whole pixels in a frame of up to 65536 pixels a
    side, the test of line 114, made in binary64, agrees with exact
    arithmetic: it holds exactly when 100 w >= 95 frame_width and
    100 h >= 95 frame_height.  It looks at the height only when the width
    passes: a width below the bound gives False whatever the height is,
    and a width that passes with a height that is not a number raises
    TypeError. *)
Theorem full_frame_test_on_pixels
    (frame_width frame_height : positive) (w h : Z) :
  (frame_width <= 65536)%positive -> (frame_height <= 65536)%positive ->
  full_frame (PyInt w) (PyInt h) frame_width frame_height
  = Ok ((95 * Z.pos frame_width <=? 100 * w) && (95 * Z.pos frame_height <=? 100 * h))
  /\ (100 * w < 95 * Z.pos frame_width ->
      forall other, full_frame (PyInt w) other frame_width frame_height = Ok false)
  /\ (95 * Z.pos frame_width <= 100 * w ->
      forall other,
        match other with PyInt _ | PyFloat _ => False | _ => True end ->
        full_frame (PyInt w) other frame_width frame_height = Raise TypeError).
Proof.
  intros Hfw Hfh. split; [now apply full_frame_pixels|]. split.
  - intros Hlt other. now apply narrow_box_short_circuits.
  - intros Hge other Hother.
    destruct (wide_box_looks_at_height frame_width frame_height w other Hfw Hfh Hge)
      as (th & _ & ->).
    destruct other; cbn; try reflexivity; contradiction.
Qed.

Lemma full_frame_test_on_pixels_witness :
  full_frame (PyInt 95) (PyInt 95) 100 100 = Ok true
  /\ full_frame (PyInt 94) PyNone 100 100 = Ok false
  /\ full_frame (PyInt 95) PyNone 100 100 = Raise TypeError.
Proof.
  destruct (full_frame_test_on_pixels 100 100 95 95) as (Hboth & _ & Hwide);
    [vm_compute; discriminate..|].
  destruct (full_frame_test_on_pixels 100 100 94 0) as (_ & Hnarrow & _);
    [vm_compute; discriminate..|].
  split; [exact Hboth|]. split; [apply Hnarrow; lia|apply Hwide; [lia|exact I]].
Defined.

(** *** Results without a face *)

(** X7.  A frame for which the classifier returns nothing to iterate over
    (an empty list) passes through the loop untouched: it is written as
    read (resized to the output if needed), no record is added for it,
    not even one with [face_detected] false, and nothing is logged. *)
Theorem nothing_detected_nothing_logged
    (E : Env) (width height : positive) (f : frame) (st : loop_state) (res : pyval) :
  analyze E (fit width height f) = Ok res ->
  iter res = Ok [] ->
  loop_body E width height f st
  = {| frame_count := frame_count st + 1;
       emotions_data := emotions_data st;
       st_cap := st_cap st;
       st_out := write (st_out st) (fit width height f);
       trace := trace st ++ [EvWrite (fit width height f)] |}.
Proof.
  intros Ha Hi. rewrite loop_body_closed.
  unfold pass_events, frame_records, written_frame, frame_annot.
  rewrite try_body_unfold. cbn [a_frame]. rewrite Ha, Hi.
  cbn [for_faces mret fst snd a_frame a_data app]. now rewrite app_nil_r.
Qed.

Lemma nothing_detected_nothing_logged_witness :
  loop_body Sample.blind 100 100 (Sample.picture 2 50 50) Sample.after_first_pass
  = {| frame_count := 2;
       emotions_data := [];
       st_cap := st_cap Sample.after_first_pass;
       st_out := write (st_out Sample.after_first_pass)
                   (fit 100 100 (Sample.picture 2 50 50));
       trace := [EvWrite (fit 100 100 (Sample.picture 2 50 50))] |}.
Proof.
  exact (nothing_detected_nothing_logged Sample.blind 100 100 (Sample.picture 2 50 50)
           Sample.after_first_pass (PyList []) eq_refl eq_refl).
Defined.

(** X8.  A classifier that returns the face as one dict instead of a list
    of dicts (or returns a str) is iterated key by key: the first key is a
    str, indexing it with ['region'] raises TypeError, and the frame is
    written as read with no record. *)
Theorem result_that_is_not_a_list_of_dicts
    (E : Env) (k : Z) (width height : positive) (f : frame)
    (res : pyval) (key : string) (keys : list pyval) :
  analyze E (fit width height f) = Ok res ->
  iter res = Ok (PyStr key :: keys) ->
  frame_annot E k width height f
  = (Raise TypeError, {| a_frame := fit width height f; a_data := [] |}).
Proof.
  intros Ha Hi. unfold frame_annot. rewrite try_body_unfold. cbn [a_frame].
  rewrite Ha, Hi. reflexivity.
Qed.

Lemma result_that_is_not_a_list_of_dicts_witness :
  frame_annot Sample.old_release 1 100 100 (Sample.picture 1 100 100)
  = (Raise TypeError, Sample.clean (Sample.picture 1 100 100)).
Proof.
  exact (result_that_is_not_a_list_of_dicts Sample.old_release 1 100 100
           (Sample.picture 1 100 100) Sample.happy "emotion"
           [PyStr "dominant_emotion"; PyStr "region"] eq_refl eq_refl).
Defined.

(* ===================================================================== *)
(** ** The request as a whole *)

Section Whole.
Variable E : Env.

Lemma first_read_pair video_file :
  first_read E video_file = (fst (first_read E video_file), snd (first_read E video_file)).
Proof. now destruct (first_read E video_file). Qed.

Lemma outputs_length width height frames : forall k,
  length (outputs_from E width height k frames) = length frames.
Proof.
  induction frames as [|f rest IH]; intros k; [reflexivity|].
  cbn [outputs_from length]. now rewrite IH.
Qed.

Lemma fold_write_static l : forall o,
  out_path (fold_left write l o) = out_path o
  /\ out_fourcc (fold_left write l o) = out_fourcc o
  /\ out_size (fold_left write l o) = out_size o.
Proof.
  induction l as [|f l IH]; intros o; [auto|].
  cbn [fold_left]. destruct (IH (write o f)) as (-> & -> & ->).
  unfold write. now destruct (out_opened o).
Qed.

Lemma written_frame_resized k width height f :
  resized_from (written_frame E k width height f)
  = if negb (cols f =? width)%positive || negb (rows f =? height)%positive
    then Some (rows f, cols f)
    else resized_from f.
Proof.
  destruct (written_frame_draws E width height k f) as [ops ->]. cbn.
  unfold fit. now destruct (_ || _).
Qed.

Lemma outputs_sized width height frames : forall k,
  Forall (fun g => (cols g, rows g) = (width, height))
    (outputs_from E width height k frames).
Proof.
  induction frames as [|f rest IH]; intros k; [constructor|].
  cbn [outputs_from]. constructor; [|apply IH].
  destruct (written_frame_size E width height (k + 1) f) as [-> ->]. reflexivity.
Qed.

Lemma outputs_resized width height frames : forall k,
  Forall2
    (fun f g =>
       resized_from g
       = if negb (cols f =? width)%positive || negb (rows f =? height)%positive
         then Some (rows f, cols f)
         else resized_from f)
    frames (outputs_from E width height k frames).
Proof.
  induction frames as [|f rest IH]; intros k; [constructor|].
  cbn [outputs_from]. constructor; [apply written_frame_resized|apply IH].
Qed.

Lemma run_closed_writes video_file first fs :
  writes (events (run_closed E video_file first fs))
  = outputs_from E (cols first) (rows first) 0 (loop_frames E video_file).
Proof.
  cbn [events run_closed]. rewrite !writes_app, writes_loop. cbn.
  now rewrite app_nil_r.
Qed.

Lemma run_closed_uploads video_file first fs :
  List.filter is_upload (events (run_closed E video_file first fs)) = [upload_call E].
Proof.
  cbn [events run_closed]. now rewrite !List.filter_app, filter_upload_loop.
Qed.

End Whole.

(** X9.  The response is decided by three things only.  It is the 400
    error exactly when the request has no video; the 500 read error
    exactly when the first frame cannot be read; otherwise it is 200 when
    the upload succeeds and the 500 upload error when it raises, whatever
    the classifier did on any frame.  The uploader is called in these last
    two cases and in no other. *)
Theorem response_kinds
    (E : Env) (request_files : option payload) (fs : gmap string file) :
  let o := process_video E request_files fs in
  (resp o = NoVideo <-> request_files = None)
  /\ (resp o = ReadFailed
      <-> exists video_file,
            request_files = Some video_file /\ fst (first_read E video_file) = None)
  /\ (forall video_file first,
        request_files = Some video_file ->
        fst (first_read E video_file) = Some first ->
        (status (resp o) = 200 <-> exists u, upload_result E video_file first fs = Ok u)
        /\ (resp o = UploadFailed
            <-> exists e, upload_result E video_file first fs = Raise e))
  /\ (List.filter is_upload (events o) = []
      <-> resp o = NoVideo \/ resp o = ReadFailed).
Proof.
  cbn zeta. destruct request_files as [video_file|].
  2:{ cbn. split; [tauto|]. split; [split; [discriminate|intros (? & [=] & _)]|].
      split; [intros ? ? [=]|]. tauto. }
  pose proof (first_read_pair E video_file) as Hpair.
  destruct (fst (first_read E video_file)) as [first|] eqn:Hfst.
  - rewrite (process_video_closed E _ _ _ _ Hpair), run_closed_uploads.
    cbn [resp run_closed].
    destruct (upload_result E video_file first fs) as [u|e] eqn:Hup.
    + split; [split; discriminate|].
      split; [split; [discriminate|intros (v & [= <-] & Hv); congruence]|].
      split.
      * intros v first' [= <-] Hf. assert (first' = first) as -> by congruence.
        rewrite Hup. cbn. split; [split; eauto|].
        split; [discriminate|intros (? & [=])].
      * split; [discriminate|intros [|]; discriminate].
    + split; [split; discriminate|].
      split; [split; [discriminate|intros (v & [= <-] & Hv); congruence]|].
      split.
      * intros v first' [= <-] Hf. assert (first' = first) as -> by congruence.
        rewrite Hup. cbn. split; [split; [discriminate|intros (? & [=])]|].
        split; eauto.
      * split; [discriminate|intros [|]; discriminate].
  - rewrite (process_video_unreadable E _ _ _ Hpair). cbn.
    split; [split; discriminate|]. split; [split; eauto|].
    split; [intros v first [= <-]; congruence|]. tauto.
Qed.

(** The sample request at a reachable and at an unreachable store. *)
Lemma response_kinds_witness :
  status (resp (process_video Sample.studio (Some []) ∅)) = 200
  /\ resp (process_video Sample.offline (Some []) ∅) = UploadFailed.
Proof.
  destruct (response_kinds Sample.studio (Some []) ∅) as (_ & _ & Hup & _).
  destruct (response_kinds Sample.offline (Some []) ∅) as (_ & _ & Hdown & _).
  split.
  - apply (proj1 (Hup [] (Sample.picture 1 100 100) eq_refl eq_refl)).
    exists tt. vm_compute. reflexivity.
  - apply (proj2 (Hdown [] (Sample.picture 1 100 100) eq_refl eq_refl)).
    eexists. reflexivity.
Defined.

(** X10.  The frame read at line 68 to take the dimensions is read again
    by the loop when the capture can seek back to the start: the loop then
    gets every frame of the container and hands as many to the writer.
    When the capture cannot seek, the loop starts at the second frame and
    the output is one frame short. *)
Theorem first_frame_is_read_again
    (E : Env) (video_file : payload) (fs : gmap string file)
    (v : video) (first : frame) (rest : list frame) :
  decode E video_file = Some v ->
  stream v = first :: rest ->
  let o := process_video E (Some video_file) fs in
  reads (after_rewind (events o)) = (if seekable v then first :: rest else rest)
  /\ length (writes (events o))
     = length (if seekable v then first :: rest else rest)
  /\ map pixels (writes (events o))
     = map pixels (if seekable v then first :: rest else rest).
Proof.
  intros Hdec Hstream. cbn zeta.
  assert (Hread : first_read E video_file
                  = (Some first,
                     {| cap_opened := true; cap_fps := declared_fps v;
                        cap_stream := stream v; cap_pending := rest;
                        cap_seekable := seekable v |})).
  { unfold first_read, read. rewrite Hdec. cbn. now rewrite Hstream. }
  assert (Hframes : loop_frames E video_file
                    = if seekable v then first :: rest else rest).
  { unfold loop_frames. rewrite Hread. unfold rewind. cbn.
    destruct (seekable v); [exact Hstream|reflexivity]. }
  rewrite (process_video_closed E _ _ _ _ Hread), run_closed_writes.
  rewrite outputs_length, outputs_pixels, Hframes.
  split; [|auto].
  rewrite <- Hframes. cbn [events run_closed after_rewind app].
  rewrite reads_app, reads_loop. cbn. now rewrite app_nil_r.
Qed.

Lemma first_frame_is_read_again_witness :
  map pixels (writes (events (process_video Sample.studio (Some []) ∅))) = [1; 2; 3]%nat
  /\ map pixels (writes (events (process_video Sample.live (Some []) ∅))) = [2; 3]%nat.
Proof.
  split.
  - exact (proj2 (proj2 (first_frame_is_read_again Sample.studio [] ∅ Sample.clip
                           (Sample.picture 1 100 100) _ eq_refl eq_refl))).
  - exact (proj2 (proj2 (first_frame_is_read_again Sample.live [] ∅ _
                           (Sample.picture 1 100 100) _ eq_refl eq_refl))).
Defined.

(** X11.  The writer is made for the output path of the request, with the
    code of 'mp4v' and the size of the first frame, and every frame it is
    given has that size: a frame of the size of the first one is passed on
    as it is, any other is resized to it. *)
Theorem writer_gets_frames_of_its_size
    (E : Env) (video_file : payload) (fs : gmap string file)
    (first : frame) (c : capture) (w : writer) :
  first_read E video_file = (Some first, c) ->
  end_out (process_video E (Some video_file) fs) = Some w ->
  let o := process_video E (Some video_file) fs in
  out_path w = output_path_of (uuid4 E)
  /\ out_fourcc w = 0x7634706d
  /\ out_size w = (cols first, rows first)
  /\ Forall (fun g => (cols g, rows g) = out_size w) (writes (events o))
  /\ Forall2
       (fun f g =>
          resized_from g
          = if negb (cols f =? cols first)%positive || negb (rows f =? rows first)%positive
            then Some (rows f, cols f)
            else resized_from f)
       (loop_frames E video_file) (writes (events o)).
Proof.
  intros Hread. cbn zeta. rewrite (process_video_closed E _ _ _ _ Hread), run_closed_writes.
  cbn [end_out run_closed]. intros [= <-]. cbn [out_release out_path out_fourcc out_size].
  match goal with
  | |- context [fold_left write ?l ?o] =>
      destruct (fold_write_static l o) as (-> & -> & ->)
  end.
  cbn [VideoWriter out_path out_fourcc out_size].
  split; [reflexivity|]. split; [reflexivity|]. split; [reflexivity|].
  split; [apply outputs_sized|apply outputs_resized].
Qed.

Lemma writer_gets_frames_of_its_size_witness :
  exists w,
    end_out (process_video Sample.studio (Some []) ∅) = Some w
    /\ out_size w = (100%positive, 100%positive)
    /\ map resized_from (writes (events (process_video Sample.studio (Some []) ∅)))
       = [None; Some (50%positive, 50%positive); None].
Proof.
  eexists.
  match goal with |- ?G /\ _ => assert (Hout : G) by (vm_compute; reflexivity) end.
  split; [exact Hout|].
  destruct (writer_gets_frames_of_its_size Sample.studio [] ∅ (Sample.picture 1 100 100)
              _ _ eq_refl Hout) as (_ & _ & Hsize & _).
  split; [exact Hsize|reflexivity].
Defined.

(** X12.  A request writes to two paths at most, its input path and its
    output path: every other path of the disk holds after the request what
    it held before, and a request without a video leaves the whole disk as
    it was. *)
Theorem other_files_untouched
    (E : Env) (request_files : option payload) (fs : gmap string file) (p : string) :
  (p <> input_path_of (uuid4 E) ->
   p <> output_path_of (uuid4 E) ->
   disk (process_video E request_files fs) !! p = fs !! p)
  /\ (request_files = None -> disk (process_video E request_files fs) = fs).
Proof.
  split; [|now intros ->].
  intros Hin Hout. destruct request_files as [video_file|]; [|reflexivity].
  destruct (first_read E video_file) as [[first|] c] eqn:Hread.
  - rewrite (process_video_closed E _ _ _ _ Hread). cbn [disk run_closed].
    unfold disk_at_upload. destruct (sink_constructed E video_file first);
      now rewrite !lookup_insert_ne by congruence.
  - rewrite (process_video_unreadable E _ _ _ Hread). cbn [disk].
    now rewrite lookup_insert_ne by congruence.
Qed.

Lemma other_files_untouched_witness :
  disk (process_video Sample.studio (Some []) {[ "uploads/temp_02c7.mp4" := Uploaded [] ]})
    !! "uploads/temp_02c7.mp4"
  = Some (Uploaded []).
Proof.
  refine (eq_trans
            (proj1 (other_files_untouched Sample.studio (Some [])
                      {[ "uploads/temp_02c7.mp4" := Uploaded [] ]} "uploads/temp_02c7.mp4")
               _ _) _);
    [vm_compute; discriminate..|reflexivity].
Defined.

(* ===================================================================== *)
(** ** File names and the storage key *)

Section Names.

Lemma append_nil_l (t : string) : EmptyString +:+ t = t.
Proof. reflexivity. Qed.

Lemma append_cons (ch : ascii) (s t : string) :
  String ch s +:+ t = String ch (s +:+ t).
Proof. reflexivity. Qed.

Lemma append_assoc (a b c : string) : (a +:+ b) +:+ c = a +:+ (b +:+ c).
Proof.
  induction a as [|ch a IH]; [reflexivity|].
  now rewrite !append_cons, IH.
Qed.

Lemma append_length (a b : string) :
  String.length (a +:+ b) = (String.length a + String.length b)%nat.
Proof.
  induction a as [|ch a IH]; [reflexivity|].
  rewrite append_cons. cbn [String.length]. now rewrite IH.
Qed.

Lemma append_cancel_l (s a b : string) : s +:+ a = s +:+ b -> a = b.
Proof.
  induction s as [|ch s IH]; [now rewrite !append_nil_l|].
  rewrite !append_cons. intros [= H]. now apply IH.
Qed.

Lemma append_cancel_r (t : string) : forall a b, a +:+ t = b +:+ t -> a = b.
Proof.
  induction a as [|ch a IH]; intros [|ch' b] H.
  - reflexivity.
  - apply (f_equal String.length) in H. rewrite append_cons in H.
    cbn [String.length] in H. rewrite append_nil_l, append_length in H. lia.
  - apply (f_equal String.length) in H. rewrite append_cons in H.
    cbn [String.length] in H. rewrite append_nil_l, append_length in H. lia.
  - rewrite !append_cons in H. injection H as -> H. f_equal. now apply IH.
Qed.

Lemma no_slash_app (a b : string) : no_slash (a +:+ b) = no_slash a && no_slash b.
Proof.
  induction a as [|ch a IH]; [reflexivity|].
  rewrite append_cons. cbn [no_slash]. now rewrite IH, andb_assoc.
Qed.

Lemma basename_from_no_slash (s : string) : forall acc,
  no_slash s = true -> basename_from acc s = acc +:+ s.
Proof.
  induction s as [|ch s IH]; intros acc H; cbn [basename_from].
  - clear H. induction acc as [|c acc IHacc]; [reflexivity|].
    now rewrite append_cons, <- IHacc.
  - cbn [no_slash] in H. apply andb_prop in H as [Hch Hs].
    apply negb_true_iff in Hch. rewrite Hch, IH by exact Hs.
    now rewrite append_assoc.
Qed.

Lemma basename_from_slash (pre name : string) : forall acc,
  basename_from acc (pre +:+ "/" +:+ name) = basename_from EmptyString name.
Proof.
  induction pre as [|ch pre IH]; intros acc.
  - reflexivity.
  - rewrite append_cons. cbn [basename_from]. destruct (Ascii.eqb ch "/"); apply IH.
Qed.

Lemma basename_join (folder name : string) :
  no_slash name = true -> basename (path_join folder name) = name.
Proof.
  intros H. unfold basename, path_join.
  now rewrite basename_from_slash, basename_from_no_slash.
Qed.

Lemma input_path_inj (a b : string) : input_path_of a = input_path_of b -> a = b.
Proof.
  unfold input_path_of, path_join, UPLOAD_FOLDER. intros H.
  do 3 apply append_cancel_l in H. now apply append_cancel_r in H.
Qed.

Lemma output_path_inj (a b : string) : output_path_of a = output_path_of b -> a = b.
Proof.
  unfold output_path_of, path_join, OUTPUT_FOLDER. intros H.
  do 3 apply append_cancel_l in H. now apply append_cancel_r in H.
Qed.

End Names.

(** X13.  The file names of a request are its own: two requests with
    different identifiers have different input paths and different output
    paths, no input path is the output path of any request, and the input
    is uploads/temp_<id>.mp4 and the output outputs/processed_<id>.mp4. *)
Theorem paths_are_per_request (a b : string) :
  (a <> b -> input_path_of a <> input_path_of b)
  /\ (a <> b -> output_path_of a <> output_path_of b)
  /\ input_path_of a <> output_path_of b
  /\ input_path_of a = "uploads/temp_" +:+ a +:+ ".mp4"
  /\ output_path_of a = "outputs/processed_" +:+ a +:+ ".mp4".
Proof.
  split; [intros Hne H; now apply Hne, input_path_inj|].
  split; [intros Hne H; now apply Hne, output_path_inj|].
  split; [|split; reflexivity].
  intros H. apply (f_equal (String.get 0)) in H. vm_compute in H. discriminate H.
Qed.

Lemma paths_are_per_request_witness :
  input_path_of "6fa1" <> input_path_of "b3d0"
  /\ output_path_of "6fa1" <> output_path_of "b3d0".
Proof.
  destruct (paths_are_per_request "6fa1" "b3d0") as (Hin & Hout & _).
  split; [apply Hin|apply Hout]; discriminate.
Defined.

(** X14.  For an identifier without a slash, as a UUID is, the storage
    key is videos/ followed by the file name of the output, and the
    response of a request that succeeds names that output and the URL of
    that key in the bucket. *)
Theorem storage_key_names_the_output
    (E : Env) (video_file : payload) (fs : gmap string file)
    (path url : string) (results : list FrameRecord) :
  no_slash (uuid4 E) = true ->
  resp (process_video E (Some video_file) fs) = Processed path url results ->
  s3_key_of E = "videos/processed_" +:+ uuid4 E +:+ ".mp4"
  /\ path = "outputs/processed_" +:+ uuid4 E +:+ ".mp4"
  /\ url = "https://" +:+ bucket_name E +:+ ".s3.amazonaws.com/videos/processed_"
           +:+ uuid4 E +:+ ".mp4"
  /\ List.filter is_upload (events (process_video E (Some video_file) fs))
     = [EvUpload path (bucket_name E) ("videos/processed_" +:+ uuid4 E +:+ ".mp4")].
Proof.
  intros Hid Hresp.
  assert (Hkey : s3_key_of E = "videos/processed_" +:+ uuid4 E +:+ ".mp4").
  { unfold s3_key_of, output_path_of. rewrite basename_join; [reflexivity|].
    now rewrite !no_slash_app, Hid. }
  destruct (first_read E video_file) as [[first|] c] eqn:Hread.
  2:{ rewrite (process_video_unreadable E _ _ _ Hread) in Hresp. discriminate Hresp. }
  rewrite (process_video_closed E _ _ _ _ Hread) in *.
  rewrite run_closed_uploads. cbn [resp run_closed] in Hresp.
  destruct (upload_result E video_file first fs); [|discriminate].
  injection Hresp as <- <- _. unfold upload_call. rewrite Hkey.
  split; [reflexivity|]. split; [reflexivity|]. split; [|reflexivity].
  do 2 f_equal.
Qed.

Lemma storage_key_names_the_output_witness :
  exists results,
    resp (process_video Sample.studio (Some []) ∅)
    = Processed "outputs/processed_6fa1.mp4"
        "https://clips.s3.amazonaws.com/videos/processed_6fa1.mp4" results
    /\ s3_key_of Sample.studio = "videos/processed_6fa1.mp4".
Proof.
  eexists.
  match goal with |- ?G /\ _ => assert (Hresp : G) by (vm_compute; reflexivity) end.
  split; [exact Hresp|].
  exact (proj1 (storage_key_names_the_output Sample.studio [] ∅ _ _ _ eq_refl Hresp)).
Defined.

(* ===================================================================== *)
(** ** What the records depend on *)

Section SameClassifier.
Variables E1 E2 : Env.
Hypothesis same_analyze : analyze E1 = analyze E2.
Hypothesis same_parse : parse_float E1 = parse_float E2.

Lemma process_face_same k face a : process_face E1 k face a = process_face E2 k face a.
Proof. unfold process_face, annotate_face. now rewrite same_parse. Qed.

Lemma for_faces_same k faces : forall a,
  for_faces E1 k faces a = for_faces E2 k faces a.
Proof.
  induction faces as [|face rest IH]; intros a; [reflexivity|].
  cbn [for_faces]. unfold mbind. rewrite process_face_same.
  destruct (process_face E2 k face a) as [[u|e] a1]; [apply IH|reflexivity].
Qed.

Lemma frame_annot_same k width height f :
  frame_annot E1 k width height f = frame_annot E2 k width height f.
Proof.
  unfold frame_annot. rewrite !try_body_unfold, same_analyze.
  destruct (analyze E2 _) as [res|e]; [|reflexivity].
  destruct (iter res); [apply for_faces_same|reflexivity].
Qed.

Lemma records_from_same width height frames : forall k,
  records_from E1 width height k frames = records_from E2 width height k frames.
Proof.
  induction frames as [|f rest IH]; intros k; [reflexivity|].
  cbn [records_from]. unfold frame_records. now rewrite frame_annot_same, IH.
Qed.

Lemma outputs_from_same width height frames : forall k,
  outputs_from E1 width height k frames = outputs_from E2 width height k frames.
Proof.
  induction frames as [|f rest IH]; intros k; [reflexivity|].
  cbn [outputs_from]. unfold written_frame. now rewrite frame_annot_same, IH.
Qed.

End SameClassifier.

(** X15.  The records of a request and the frames it hands to the writer
    depend on the video and on the classifier only: two requests with the
    same payload, decoded alike and classified alike, that both succeed
    return the same records and write the same frames, whatever their
    identifiers, buckets, codecs, uploaders and disks; and with different
    identifiers they name different output files. *)
Theorem records_depend_on_video_and_classifier
    (E1 E2 : Env) (video_file : payload) (fs1 fs2 : gmap string file)
    (path1 url1 path2 url2 : string) (results1 results2 : list FrameRecord) :
  decode E1 video_file = decode E2 video_file ->
  analyze E1 = analyze E2 ->
  parse_float E1 = parse_float E2 ->
  resp (process_video E1 (Some video_file) fs1) = Processed path1 url1 results1 ->
  resp (process_video E2 (Some video_file) fs2) = Processed path2 url2 results2 ->
  results1 = results2
  /\ writes (events (process_video E1 (Some video_file) fs1))
     = writes (events (process_video E2 (Some video_file) fs2))
  /\ (uuid4 E1 <> uuid4 E2 -> path1 <> path2).
Proof.
  intros Hdec Ha Hp H1 H2.
  assert (Hsame : first_read E1 video_file = first_read E2 video_file)
    by (unfold first_read; now rewrite Hdec).
  assert (Hframes : loop_frames E1 video_file = loop_frames E2 video_file)
    by (unfold loop_frames; now rewrite Hsame).
  destruct (first_read E2 video_file) as [[first|] c] eqn:Hread.
  2:{ rewrite (process_video_unreadable E2 _ _ _ Hread) in H2. discriminate H2. }
  rewrite (process_video_closed E1 _ _ _ _ Hsame) in *.
  rewrite (process_video_closed E2 _ _ _ _ Hread) in *.
  rewrite !run_closed_writes. cbn [resp run_closed] in H1, H2.
  destruct (upload_result E1 video_file first fs1); [|discriminate].
  destruct (upload_result E2 video_file first fs2); [|discriminate].
  injection H1 as <- _ <-. injection H2 as <- _ <-. rewrite Hframes.
  split; [now apply records_from_same|].
  split; [now apply outputs_from_same|].
  intros Hne H. now apply Hne, output_path_inj.
Qed.

Lemma records_depend_on_video_and_classifier_witness :
  exists url1 url2 results,
    resp (process_video Sample.studio (Some []) ∅)
    = Processed "outputs/processed_6fa1.mp4" url1 results
    /\ resp (process_video Sample.elsewhere (Some [])
               {[ "uploads/temp_02c7.mp4" := Uploaded [] ]})
       = Processed "outputs/processed_b3d0.mp4" url2 results.
Proof.
  assert (H1 : exists url results,
             resp (process_video Sample.studio (Some []) ∅)
             = Processed "outputs/processed_6fa1.mp4" url results)
    by (eexists _, _; vm_compute; reflexivity).
  assert (H2 : exists url results,
             resp (process_video Sample.elsewhere (Some [])
                     {[ "uploads/temp_02c7.mp4" := Uploaded [] ]})
             = Processed "outputs/processed_b3d0.mp4" url results)
    by (eexists _, _; vm_compute; reflexivity).
  destruct H1 as (url1 & results1 & H1). destruct H2 as (url2 & results2 & H2).
  destruct (records_depend_on_video_and_classifier Sample.studio Sample.elsewhere []
              ∅ {[ "uploads/temp_02c7.mp4" := Uploaded [] ]} _ _ _ _ _ _
              eq_refl eq_refl eq_refl H1 H2) as (Hsame & _).
  exists url1, url2, results1. split; [exact H1|]. rewrite Hsame. exact H2.
Defined.

(* ===================================================================== *)
(** ** The warnings *)

Section Warnings.
Variable E : Env.
Variables width height : positive.

Lemma warns_app t1 t2 : warns (t1 ++ t2) = warns t1 ++ warns t2.
Proof.
  induction t1 as [|ev t1 IH]; [reflexivity|].
  destruct ev; cbn; now rewrite ?IH.
Qed.

Lemma warns_loop frames : forall k,
  warns (loop_events E width height k frames) = failures_from E width height k frames.
Proof.
  induction frames as [|f rest IH]; intros k; [reflexivity|].
  cbn [loop_events failures_from warns]. rewrite warns_app, IH. f_equal.
  unfold pass_events. now destruct (fst _).
Qed.

Lemma failures_from_spec frames : forall k0 k e,
  (k, e) ∈ failures_from E width height k0 frames
  <-> exists i f,
        frames !! i = Some f /\ k = k0 + Z.of_nat i + 1
        /\ fst (frame_annot E k width height f) = Raise e.
Proof.
  induction frames as [|f rest IH]; intros k0 k e; cbn [failures_from].
  - split; [intros H; inversion H|intros (i & g & H & _); discriminate H].
  - rewrite elem_of_app, IH. split.
    + intros [Hhere|(i & g & Hi & -> & Hg)].
      * destruct (fst (frame_annot E (k0 + 1) width height f)) as [u|e'] eqn:Hf;
          [inversion Hhere|].
        apply list_elem_of_singleton in Hhere. injection Hhere as -> ->.
        exists 0%nat, f. split; [reflexivity|]. split; [lia|exact Hf].
      * exists (S i), g. split; [exact Hi|]. split; [lia|exact Hg].
    + intros ([|i] & g & Hi & -> & Hg).
      * left. cbn in Hi. injection Hi as <-.
        replace (k0 + Z.of_nat 0 + 1) with (k0 + 1) in * by lia. rewrite Hg.
        now apply list_elem_of_singleton.
      * right. exists i, g. split; [exact Hi|]. split; [lia|exact Hg].
Qed.

Lemma failures_from_length frames : forall k,
  (length (failures_from E width height k frames) <= length frames)%nat.
Proof.
  induction frames as [|f rest IH]; intros k; [reflexivity|].
  cbn [failures_from length]. rewrite length_app. specialize (IH (k + 1)).
  destruct (fst _); cbn; lia.
Qed.

End Warnings.

(** X16.  The handler logs a warning for exactly the frames whose pass
    raised: (k, e) is among the warnings of a request exactly when the
    pass of the k-th frame of the loop, counted from 1, raised e; and
    there are no more warnings than frames. *)
Theorem warnings_name_the_failed_frames
    (E : Env) (video_file : payload) (fs : gmap string file)
    (first : frame) (c : capture) :
  first_read E video_file = (Some first, c) ->
  let o := process_video E (Some video_file) fs in
  (forall k e,
     (k, e) ∈ warns (events o)
     <-> exists i f,
           loop_frames E video_file !! i = Some f /\ k = Z.of_nat i + 1
           /\ fst (frame_annot E k (cols first) (rows first) f) = Raise e)
  /\ (length (warns (events o)) <= length (loop_frames E video_file))%nat.
Proof.
  intros Hread. cbn zeta. rewrite (process_video_closed E _ _ _ _ Hread).
  assert (Hw : warns (events (run_closed E video_file first fs))
               = failures_from E (cols first) (rows first) 0 (loop_frames E video_file)).
  { cbn [events run_closed]. rewrite !warns_app, warns_loop. cbn.
    now rewrite app_nil_r. }
  rewrite Hw. split.
  - intros k e. rewrite failures_from_spec. now setoid_rewrite Z.add_0_l.
  - apply failures_from_length.
Qed.

Lemma warnings_name_the_failed_frames_witness :
  warns (events (process_video Sample.studio (Some []) ∅))
  = [(2, KeyError); (3, CollaboratorError "model failure")]
  /\ (2, KeyError) ∈ warns (events (process_video Sample.studio (Some []) ∅)).
Proof.
  split; [vm_compute; reflexivity|].
  apply (proj1 (warnings_name_the_failed_frames Sample.studio [] ∅
                  (Sample.picture 1 100 100) _ eq_refl) 2 KeyError).
  exists 1%nat, (Sample.picture 2 50 50). repeat split.
Defined.

(* ===================================================================== *)
(** ** Loading the module *)

Section Loading.
Import Startup.

Lemma truthy_spec v : truthy v = true <-> exists s, v = Some s /\ s <> EmptyString.
Proof.
  destruct v as [s|]; cbn.
  - rewrite negb_true_iff, String.eqb_neq. split; [eauto|now intros (? & [= <-] & ?)].
  - split; [discriminate|intros (? & [=] & _)].
Qed.

Lemma all_truthy_spec (environ : gmap string string) :
  forallb truthy
    [ environ !! "AWS_ACCESS_KEY_ID"; environ !! "AWS_SECRET_ACCESS_KEY";
      environ !! "AWS_REGION"; environ !! "BUCKET_NAME" ] = true
  <-> Forall (fun name => exists s, environ !! name = Some s /\ s <> EmptyString)
        [ "AWS_ACCESS_KEY_ID"; "AWS_SECRET_ACCESS_KEY"; "AWS_REGION"; "BUCKET_NAME" ].
Proof.
  cbn [forallb]. rewrite !andb_true_iff, !Forall_cons_iff, !truthy_spec.
  split; [intros (? & ? & ? & ? & _); repeat split; auto; constructor|].
  intros (? & ? & ? & ? & _). auto.
Qed.

Lemma folders_differ : UPLOAD_FOLDER <> OUTPUT_FOLDER.
Proof. discriminate. Qed.

End Loading.

(** X17.  Loading the module succeeds exactly when neither uploads nor
    outputs exists as a regular file, the four variables
    AWS_ACCESS_KEY_ID, AWS_SECRET_ACCESS_KEY, AWS_REGION and BUCKET_NAME
    are all set to strings that are not empty, and [boto3.client], given
    the first three, raises nothing; the globals then hold their values.
    With the folders in order and a variable missing or empty it raises
    the ValueError of line 40, whatever the client would do; with the
    folders in order and the four variables set, what [boto3.client]
    raises ends the loading. *)
Theorem load_succeeds_iff
    (client : option string -> option string -> option string -> result unit)
    (environ : gmap string string) (tree : gmap string Startup.entry) :
  let folders_free :=
    tree !! UPLOAD_FOLDER <> Some Startup.RegularFile
    /\ tree !! OUTPUT_FOLDER <> Some Startup.RegularFile in
  let all_set :=
    Forall (fun name => exists s, environ !! name = Some s /\ s <> EmptyString)
      [ "AWS_ACCESS_KEY_ID"; "AWS_SECRET_ACCESS_KEY"; "AWS_REGION"; "BUCKET_NAME" ] in
  let built :=
    client (environ !! "AWS_ACCESS_KEY_ID") (environ !! "AWS_SECRET_ACCESS_KEY")
           (environ !! "AWS_REGION") in
  (forall c,
     fst (Startup.load client environ tree) = inr c
     <-> folders_free /\ all_set /\ built = Ok tt
         /\ c = {| Startup.AWS_ACCESS_KEY_ID := environ !! "AWS_ACCESS_KEY_ID";
                   Startup.AWS_SECRET_ACCESS_KEY := environ !! "AWS_SECRET_ACCESS_KEY";
                   Startup.AWS_REGION := environ !! "AWS_REGION";
                   Startup.bucket_name := environ !! "BUCKET_NAME" |})
  /\ (fst (Startup.load client environ tree) = inl Startup.MissingCredentials
      <-> folders_free /\ ~ all_set)
  /\ (forall e,
        fst (Startup.load client environ tree) = inl (Startup.ClientError e)
        <-> folders_free /\ all_set /\ built = Raise e).
Proof.
  cbn zeta. pose proof (all_truthy_spec environ) as Hall.
  set (all_set := Forall _ _) in *.
  set (c0 := Startup.Build_credentials _ _ _ _).
  assert (Hfst :
    fst (Startup.load client environ tree)
    = match tree !! UPLOAD_FOLDER, tree !! OUTPUT_FOLDER with
      | Some Startup.RegularFile, _ => inl (Startup.FileExistsError UPLOAD_FOLDER)
      | _, Some Startup.RegularFile => inl (Startup.FileExistsError OUTPUT_FOLDER)
      | _, _ =>
          if forallb Startup.truthy
               [ environ !! "AWS_ACCESS_KEY_ID"; environ !! "AWS_SECRET_ACCESS_KEY";
                 environ !! "AWS_REGION"; environ !! "BUCKET_NAME" ]
          then match client (environ !! "AWS_ACCESS_KEY_ID")
                       (environ !! "AWS_SECRET_ACCESS_KEY") (environ !! "AWS_REGION") with
               | Ok _ => inr c0
               | Raise e => inl (Startup.ClientError e)
               end
          else inl Startup.MissingCredentials
      end).
  { unfold Startup.load, Startup.makedirs.
    destruct (tree !! UPLOAD_FOLDER) as [[|]|];
      rewrite ?lookup_insert_ne by exact folders_differ;
      destruct (tree !! OUTPUT_FOLDER) as [[|]|]; try reflexivity;
      cbn [Startup.AWS_ACCESS_KEY_ID Startup.AWS_SECRET_ACCESS_KEY
           Startup.AWS_REGION Startup.bucket_name];
      destruct (forallb Startup.truthy _); try reflexivity;
      destruct (client _ _ _); reflexivity. }
  rewrite Hfst. clear Hfst.
  destruct (tree !! UPLOAD_FOLDER) as [[|]|]; destruct (tree !! OUTPUT_FOLDER) as [[|]|];
    try (split; [intros c|split; [|intros e]];
         (split; [discriminate
                 |intros ((Hfu & Hfo) & _); exfalso; (now apply Hfu) || (now apply Hfo)]));
    (destruct (forallb Startup.truthy _) eqn:Hcheck;
     [destruct (client _ _ _) as [[]|e0]|]);
    (split; [intros c|split; [|intros e]]);
    (split; [intros Heq|intros (Hfree & Hrest)]);
    try discriminate Heq;
    try (injection Heq as <-);
    try (split; [split; discriminate|]);
    try (split; [apply Hall; reflexivity|]);
    try (split; reflexivity);
    try reflexivity;
    try (intros Hs; apply Hall in Hs; discriminate Hs);
    try (exfalso; apply Hrest, Hall; reflexivity);
    try (destruct Hrest as (Hs & Hb & ->); reflexivity);
    try (destruct Hrest as (Hs & Hb); apply Hall in Hs; discriminate Hs);
    try (destruct Hrest as (Hs & Hb & _); discriminate Hb);
    try (destruct Hrest as (Hs & Hb); first [discriminate Hb|injection Hb as <-; reflexivity]).
Qed.

(** With the four variables set: the globals, when the client takes the
    region; what the client raises, when it does not. *)
Lemma load_succeeds_iff_witness :
  (exists c, fst (Startup.load Sample.boto3_client Sample.environ ∅) = inr c
             /\ Startup.bucket_name c = Some "clips")
  /\ fst (Startup.load Sample.boto3_client Sample.environ_bad_region ∅)
     = inl (Startup.ClientError (CollaboratorError "InvalidRegionError")).
Proof.
  split.
  - destruct (load_succeeds_iff Sample.boto3_client Sample.environ ∅) as [Hok _].
    eexists. split.
    + apply Hok. split; [split; discriminate|]. split; [|split; reflexivity].
      repeat constructor; eexists; (split; [vm_compute; reflexivity|discriminate]).
    + vm_compute. reflexivity.
  - destruct (load_succeeds_iff Sample.boto3_client Sample.environ_bad_region ∅)
      as (_ & _ & Hclient).
    apply Hclient. split; [split; discriminate|]. split; [|vm_compute; reflexivity].
    repeat constructor; eexists; (split; [vm_compute; reflexivity|discriminate]).
Defined.

(** X18.  Unless uploads or outputs is in the way as a regular file,
    loading the module leaves both as directories, also when it then
    raises for missing credentials; it changes no other path; and loading
    again on the disk it left gives the same result and changes
    nothing. *)
Theorem load_makes_folders_once
    (client : option string -> option string -> option string -> result unit)
    (environ : gmap string string) (tree : gmap string Startup.entry) :
  tree !! UPLOAD_FOLDER <> Some Startup.RegularFile ->
  tree !! OUTPUT_FOLDER <> Some Startup.RegularFile ->
  let tree' := snd (Startup.load client environ tree) in
  tree' !! UPLOAD_FOLDER = Some Startup.Directory
  /\ tree' !! OUTPUT_FOLDER = Some Startup.Directory
  /\ (forall p, p <> UPLOAD_FOLDER -> p <> OUTPUT_FOLDER -> tree' !! p = tree !! p)
  /\ Startup.load client environ tree' = (fst (Startup.load client environ tree), tree').
Proof.
  intros Hu Ho. cbn zeta.
  pose proof folders_differ as Hne.
  assert (Hne' : OUTPUT_FOLDER <> UPLOAD_FOLDER) by congruence.
  unfold Startup.load, Startup.makedirs.
  destruct (tree !! UPLOAD_FOLDER) as [[|]|] eqn:Eu; [|contradiction|];
    rewrite ?(lookup_insert_ne _ _ _ _ Hne);
    (destruct (tree !! OUTPUT_FOLDER) as [[|]|] eqn:Eo; [|contradiction|]);
    (destruct (forallb Startup.truthy _) eqn:Hcheck;
     [destruct (client _ _ _) as [u|e0] eqn:Hbuilt|]);
    cbn [fst snd];
    repeat first [ rewrite lookup_insert_eq
                 | rewrite (lookup_insert_ne _ _ _ _ Hne)
                 | rewrite (lookup_insert_ne _ _ _ _ Hne')
                 | rewrite Eu | rewrite Eo | rewrite Hcheck | rewrite Hbuilt
                 | progress cbv beta iota ];
    (split; [reflexivity|]); (split; [reflexivity|]);
    (split; [|reflexivity]);
    intros p Hpu Hpo; now rewrite ?lookup_insert_ne by congruence.
Qed.

(** On an empty disk and without credentials: the ValueError, and the two
    folders. *)
Lemma load_makes_folders_once_witness :
  fst (Startup.load Sample.boto3_client ∅ ∅) = inl Startup.MissingCredentials
  /\ snd (Startup.load Sample.boto3_client ∅ ∅) !! "uploads" = Some Startup.Directory
  /\ snd (Startup.load Sample.boto3_client ∅ ∅) !! "outputs" = Some Startup.Directory.
Proof.
  destruct (load_makes_folders_once Sample.boto3_client ∅ ∅) as (Hu & Ho & _);
    [discriminate..|].
  split; [reflexivity|]. split; [exact Hu|exact Ho].
Defined.

(* ===================================================================== *)
(** ** The colour of a label *)

(** X19.  The colour for a label that is a str is never black, the colour
    of the outline under it, and it is white exactly for the labels that
    the table does not have; looking a str up never raises. *)
Theorem unknown_label_is_white (label : string) :
  exists c,
    emotion_color (PyStr label) = Ok c
    /\ c <> black
    /\ (c = white
        <-> ~ In label ["happy"; "sad"; "angry"; "surprise"; "fear"; "disgust"; "neutral"]).
Proof.
  unfold emotion_color. eexists. split; [reflexivity|].
  destruct (decide (label ∈ ["happy"; "sad"; "angry"; "surprise"; "fear"; "disgust";
                             "neutral"])) as [Hin|Hout].
  - rewrite !elem_of_cons in Hin.
    destruct Hin as [->|[->|[->|[->|[->|[->|[->|Hin]]]]]]];
      [split; [vm_compute; discriminate|];
       (split; [vm_compute; discriminate|intros H; exfalso; apply H; cbn; tauto])..|].
    inversion Hin.
  - assert (Hnone : EMOTION_COLORS !! label = None).
    { apply not_elem_of_list_to_map_1. exact Hout. }
    rewrite Hnone. cbn. split; [discriminate|]. split; [intros _|reflexivity].
    intros Hin. apply Hout. now apply list_elem_of_In.
Qed.
